(** * batch-crop-usdt-pairs-v2.py: a shallow embedding and its properties

    The script crops every PNG screenshot of a directory by a fixed margin
    rectangle and writes a sibling [*_cropped.png] per input.  The embedding
    follows the script function by function ([crop_file], [main]).  What the
    script calls but does not define is modelled beside it: the [str]
    methods and [os.path] functions after their CPython definitions, the
    file system as a two-level finite map, [print] as appending a line to
    standard output (it never fails), and the three calls into the imaging
    library Pillow ([Image.open], [Image.crop], [Image.save]) after
    Pillow's behaviour on the inputs the script can give them. *)

From Stdlib Require Import ZArith Ascii String List Lia.
From stdpp Require Import base option list sorting strings pretty gmap.

Local Open Scope Z_scope.

(** ** Python [str]: the methods the script uses

    A [str] is modelled as a [string]; [lower] acts on the ASCII letters,
    which is all that the two suffixes tested by the script can observe. *)
Module Str.

Definition lower_char (c : ascii) : ascii :=
  let n := N_of_ascii c in
  if ((65 <=? n) && (n <=? 90))%N then ascii_of_N (n + 32) else c.

Fixpoint lower (s : string) : string :=
  match s with
  | EmptyString => EmptyString
  | String c r => String (lower_char c) (lower r)
  end.

(** [s.endswith(suf)] *)
Fixpoint endswith (s suf : string) : bool :=
  String.eqb s suf ||
  match s with
  | EmptyString => false
  | String _ r => endswith r suf
  end.

(** [s.startswith(pre)] *)
Fixpoint startswith (s pre : string) : bool :=
  match pre, s with
  | EmptyString, _ => true
  | String a pre', String b s' => Ascii.eqb a b && startswith s' pre'
  | String _ _, EmptyString => false
  end.

(** [s.rfind(c)] for a one-character needle: the highest index of [c],
    or [-1]. *)
Fixpoint rfind (s : string) (c : ascii) : Z :=
  match s with
  | EmptyString => -1
  | String a r =>
      let i := rfind r c in
      if 0 <=? i then i + 1
      else if Ascii.eqb a c then 0 else -1
  end.

Fixpoint take (n : nat) (s : string) : string :=
  match n, s with
  | S n', String a r => String a (take n' r)
  | _, _ => EmptyString
  end.

Fixpoint drop (n : nat) (s : string) : string :=
  match n, s with
  | S n', String _ r => drop n' r
  | _, _ => s
  end.

(** The slices [s[:i]], [s[i:]] and [s[i:j]] for indices [0 <= i]. *)
Definition upto (i : Z) (s : string) : string := take (Z.to_nat i) s.
Definition from (i : Z) (s : string) : string := drop (Z.to_nat i) s.
Definition slice (i j : Z) (s : string) : string := upto (j - i) (from i s).

Fixpoint contains (c : ascii) (s : string) : bool :=
  match s with
  | EmptyString => false
  | String a r => Ascii.eqb a c || contains c r
  end.

(** Truthiness of a [str]: [if s:] holds for the non-empty ones. *)
Definition truthy (s : string) : bool :=
  match s with EmptyString => false | String _ _ => true end.

(** [str((a, b))] for a pair of integers, as an f-string renders it. *)
Definition of_pair (p : Z * Z) : string :=
  "(" +:+ pretty (fst p) +:+ ", " +:+ pretty (snd p) +:+ ")".

End Str.

(** ** [os.path] (POSIX flavour) *)
Module OsPath.

Definition sep : ascii := "/"%char.
Definition extsep : ascii := "."%char.

(** [os.path.join(a, b)] *)
Definition join (a b : string) : string :=
  if Str.startswith b "/" then b
  else if negb (Str.truthy a) || Str.endswith a "/" then a +:+ b
  else a +:+ "/" +:+ b.

(** [os.path.basename(p)]: what follows the last separator. *)
Definition basename (p : string) : string :=
  Str.from (Str.rfind p sep + 1) p.

(** The loop of [genericpath._splitext] that skips leading dots: it
    answers whether some character of the file name before the last dot
    is not a dot. *)
Fixpoint has_non_dot (s : string) : bool :=
  match s with
  | EmptyString => false
  | String a r => if Ascii.eqb a extsep then has_non_dot r else true
  end.

(** [os.path.splitext(p)] *)
Definition splitext (p : string) : string * string :=
  let sepIndex := Str.rfind p sep in
  let dotIndex := Str.rfind p extsep in
  if (sepIndex <? dotIndex) && has_non_dot (Str.slice (sepIndex + 1) dotIndex p)
  then (Str.upto dotIndex p, Str.from dotIndex p)
  else (p, EmptyString).

End OsPath.

(** ** The world the script runs in

    A finite map from directory paths to directories; a directory maps the
    names of its entries to nodes.  A regular file either holds the PNG
    encoding of an image or bytes that no decoder accepts; it may be
    read-only. *)

Definition pixel := Z.

(** A decoded raster: [img.size] is [(width, height)], [getpixel x y] the
    sample at column [x], row [y]. *)
Record image := Image {
  width : Z;
  height : Z;
  getpixel : Z -> Z -> pixel
}.

Definition size (img : image) : Z * Z := (width img, height img).

Inductive content :=
| Png (img : image)
| Garbage.

Inductive node :=
| Dir
| File (readonly : bool) (c : content).

Record world := World {
  dirs : gmap string (gmap string node);
  stdout : list string;
  (** what [os.path.abspath] answers, which depends on the working directory *)
  cwd_abspath : string -> string
}.

Module Fs.

(** How the system resolves a path: the directory before the last
    separator ([.] when there is none) and the entry name after it. *)
Definition split (p : string) : string * string :=
  let i := Str.rfind p OsPath.sep in
  if i <? 0 then (".", p) else (Str.upto i p, Str.from (i + 1) p).

(** The key of a directory named with or without a trailing separator. *)
Definition dirkey (t : string) : string :=
  if Str.endswith t "/" then Str.upto (Z.of_nat (String.length t) - 1) t else t.

Definition lookup_dir (w : world) (t : string) : option (gmap string node) :=
  if Str.truthy t then dirs w !! dirkey t else None.

Definition lookup (w : world) (p : string) : option node :=
  let '(d, n) := split p in
  match dirs w !! d with
  | Some dir => dir !! n
  | None => None
  end.

(** Create or replace the entry [n] of directory [d]. *)
Definition put (d n : string) (x : node) (w : world) : world :=
  match dirs w !! d with
  | Some dir => World (<[d := <[n := x]> dir]> (dirs w)) (stdout w) (cwd_abspath w)
  | None => w
  end.

End Fs.

(** ** Exceptions and the monad of effects *)

Inductive exn :=
| FileNotFoundError (path : string)
| IsADirectoryError (path : string)
| PermissionError (path : string)
| UnidentifiedImageError (path : string)
| ValueError (msg : string)
| SystemError (msg : string)
| SystemExit (code : Z).

(** [SystemExit] derives from [BaseException] only; the others are caught
    by [except Exception]. *)
Definition is_Exception (e : exn) : bool :=
  match e with
  | SystemExit _ => false
  | _ => true
  end.

(** [str(e)] *)
Definition str_of_exn (e : exn) : string :=
  match e with
  | FileNotFoundError p => "[Errno 2] No such file or directory: '" +:+ p +:+ "'"
  | IsADirectoryError p => "[Errno 21] Is a directory: '" +:+ p +:+ "'"
  | PermissionError p => "[Errno 13] Permission denied: '" +:+ p +:+ "'"
  | UnidentifiedImageError p => "cannot identify image file '" +:+ p +:+ "'"
  | ValueError m => m
  | SystemError m => m
  | SystemExit c => pretty c
  end.

(** A computation reads and updates the world and either returns a value
    or raises; the world it leaves behind is kept in both cases. *)
Definition M (A : Type) : Type := world -> (exn + A) * world.

Definition ret {A} (a : A) : M A := fun w => (inr a, w).

Definition raise {A} (e : exn) : M A := fun w => (inl e, w).

Definition bind {A B} (c : M A) (k : A -> M B) : M B :=
  fun w =>
    match c w with
    | (inr a, w') => k a w'
    | (inl e, w') => (inl e, w')
    end.

Notation "x <- c ;; k" := (bind c (fun x => k))
  (at level 100, c at next level, right associativity).
Notation "c ;;; k" := (bind c (fun _ => k))
  (at level 100, right associativity).

(** [try: body  except Exception as e: handler e] *)
Definition try_except {A} (body : M A) (handler : exn -> M A) : M A :=
  fun w =>
    match body w with
    | (inl e, w') => if is_Exception e then handler e w' else (inl e, w')
    | r => r
    end.

(** [print(line)] *)
Definition print (line : string) : M unit :=
  fun w => (inr tt, World (dirs w) (stdout w ++ [line]) (cwd_abspath w)).

(** [sys.exit(code)] *)
Definition sys_exit {A} (code : Z) : M A := raise (SystemExit code).

(** ** The imaging library, as far as the script uses it

    Pillow is a dependency of the script, not part of it.  The three calls
    are modelled on decoded rasters: opening decodes at once, cropping
    copies the box pixel by pixel, saving encodes to PNG without loss. *)
Module PIL.

(** [Image.open(fp)], the decoding included. *)
Definition open (fp : string) : M image :=
  fun w =>
    match Fs.lookup w fp with
    | None => (inl (FileNotFoundError fp), w)
    | Some Dir => (inl (IsADirectoryError fp), w)
    | Some (File _ Garbage) => (inl (UnidentifiedImageError fp), w)
    | Some (File _ (Png img)) => (inr img, w)
    end.

Definition inside (img : image) (x y : Z) : bool :=
  (0 <=? x) && (x <? width img) && (0 <=? y) && (y <? height img).

(** [img.crop((left, upper, right, lower))]: a box whose right edge is
    left of its left edge, or whose lower edge is above its upper edge,
    is refused; what the box covers outside the image is blank. *)
Definition crop (img : image) (box : Z * Z * Z * Z) : M image :=
  let '(x0, y0, x1, y1) := box in
  if x1 <? x0 then raise (ValueError "Coordinate 'right' is less than 'left'")
  else if y1 <? y0 then raise (ValueError "Coordinate 'lower' is less than 'upper'")
  else ret (Image (x1 - x0) (y1 - y0)
              (fun x y => if inside img (x + x0) (y + y0)
                          then getpixel img (x + x0) (y + y0) else 0)).

(** [img.save(fp)] to a [.png] path.  The file is opened for writing
    first, which fails on a missing directory, a directory entry or a
    read-only file.  The encoder then refuses an image without pixels;
    in that case a file that was just created is removed again and one
    that existed before is left truncated. *)
Definition save (img : image) (fp : string) : M unit :=
  fun w =>
    let '(d, n) := Fs.split fp in
    match dirs w !! d with
    | None => (inl (FileNotFoundError fp), w)
    | Some dir =>
        match dir !! n with
        | Some Dir => (inl (IsADirectoryError fp), w)
        | Some (File true _) => (inl (PermissionError fp), w)
        | old =>
            if (0 <? width img) && (0 <? height img)
            then (inr tt, Fs.put d n (File false (Png img)) w)
            else (inl (SystemError "tile cannot extend outside image"),
                  match old with
                  | None => w
                  | Some _ => Fs.put d n (File false Garbage) w
                  end)
        end
    end.

End PIL.

(** ** The script *)

(** The dictionary [CROP] has the four keys ['left'], ['top'], ['right']
    and ['bottom']. *)
Record crop_rect := CropRect {
  crop_left : Z;
  crop_top : Z;
  crop_right : Z;
  crop_bottom : Z
}.

(** Crop rectangle for TradingView 1920x1080 charts: remove left 40,
    right 440, top 130, bottom 100. *)
Definition CROP : crop_rect := CropRect 40 130 440 100.

Definition EXPECTED_SIZE : Z * Z := (1920, 1080).

Definition size_eqb (a b : Z * Z) : bool :=
  (fst a =? fst b) && (snd a =? snd b).

Definition out_path_of (src_path : string) : string :=
  let '(base, ext) := OsPath.splitext src_path in
  base +:+ "_cropped.png".

Definition warn_line (src_path : string) (img : image) : string :=
  "WARN: " +:+ OsPath.basename src_path +:+ " expected " +:+
  Str.of_pair EXPECTED_SIZE +:+ ", got " +:+ Str.of_pair (size img).

Definition cropped_line (src_path out_path : string) : string :=
  "CROPPED " +:+ OsPath.basename src_path +:+ " -> " +:+ OsPath.basename out_path.

Definition error_line (src_path : string) (e : exn) : string :=
  "ERROR: " +:+ OsPath.basename src_path +:+ " failed: " +:+ str_of_exn e.

(** The body of the [try] statement of [crop_file]. *)
Definition crop_body (src_path out_path : string) : M string :=
  img <- PIL.open src_path ;;
  (if negb (size_eqb (size img) EXPECTED_SIZE)
   then print (warn_line src_path img)
   else ret tt) ;;;
  let left := crop_left CROP in
  let top := crop_top CROP in
  let width' := width img - crop_left CROP - crop_right CROP in
  let height' := height img - crop_top CROP - crop_bottom CROP in
  out <- PIL.crop img (left, top, left + width', top + height') ;;
  PIL.save out out_path ;;;
  print (cropped_line src_path out_path) ;;;
  ret out_path.

Definition crop_file (src_path : string) : M string :=
  let out_path := out_path_of src_path in
  try_except
    (crop_body src_path out_path)
    (fun e =>
       print (error_line src_path e) ;;;
       ret EmptyString).

(** [os.path.isdir(target)] *)
Definition os_path_isdir (target : string) (w : world) : bool :=
  match Fs.lookup_dir w target with Some _ => true | None => false end.

(** [os.listdir(target)] on a directory: the names of its entries. *)
Definition os_listdir (target : string) (w : world) : list string :=
  match Fs.lookup_dir w target with
  | Some dir => (map_to_list dir).*1
  | None => []
  end.

Definition is_candidate (f : string) : bool :=
  Str.endswith (Str.lower f) ".png" && negb (Str.endswith (Str.lower f) "_cropped.png").

(** The list comprehension of [main]. *)
Definition candidates (listing : list string) : list string :=
  List.filter is_candidate listing.

(** [sorted(files)] on strings: ascending by code point, lexicographically. *)
Definition sorted (files : list string) : list string :=
  merge_sort String.le files.

(** The [for] loop of [main], with its counter. *)
Fixpoint crop_loop (target : string) (fs : list string) (processed : Z) : M Z :=
  match fs with
  | [] => ret processed
  | f :: rest =>
      let src := OsPath.join target f in
      out <- crop_file src ;;
      crop_loop target rest (if Str.truthy out then processed + 1 else processed)
  end.

(** [os.path.abspath(target)] *)
Definition os_path_abspath (target : string) : M string :=
  fun w => (inr (cwd_abspath w target), w).

Definition target_of (argv : list string) : string :=
  match argv with
  | _ :: t :: _ => t
  | _ => "."
  end.

Definition done_line (processed : Z) (total : nat) (where_ : string) : string :=
  "DONE: " +:+ pretty processed +:+ "/" +:+ pretty total +:+
  " images cropped in " +:+ where_.

Definition main (argv : list string) : M unit :=
  fun w =>
    let target := target_of argv in
    if negb (os_path_isdir target w)
    then (print ("ERROR: target is not a directory: " +:+ target) ;;; sys_exit 1) w
    else
      let files := candidates (os_listdir target w) in
      match files with
      | [] => (print "INFO: No PNG files to process in target directory." ;;; sys_exit 0) w
      | _ =>
          (processed <- crop_loop target (sorted files) 0 ;;
           where_ <- os_path_abspath target ;;
           print (done_line processed (length files) where_)) w
      end.

(** The exit status of the process that runs [main]: the code of a
    [SystemExit], 0 when [main] returns, 1 for any other exception that
    escapes. *)
Definition run (argv : list string) (w : world) : Z * world :=
  match main argv w with
  | (inr _, w') => (0, w')
  | (inl (SystemExit c), w') => (c, w')
  | (inl _, w') => (1, w')
  end.

(** ** Vocabulary of the statements *)

(** Entry names, as [os.listdir] returns them, hold no separator. *)
Definition no_sep (f : string) : Prop := Str.contains OsPath.sep f = false.

(** The entry [n] of directory [d], if both exist. *)
Definition entry (w : world) (d n : string) : option node :=
  match dirs w !! d with
  | Some dir => dir !! n
  | None => None
  end.

(** The world after one more line on standard output. *)
Definition add_line (line : string) (w : world) : world :=
  World (dirs w) (stdout w ++ [line]) (cwd_abspath w).

(** The raster that removing the margins of [CROP] leaves. *)
Definition cropped (img : image) : image :=
  Image (width img - 480) (height img - 230)
    (fun x y => if PIL.inside img (x + 40) (y + 130)
                then getpixel img (x + 40) (y + 130) else 0).

(** What opening a path for writing meets there. *)
Inductive target_kind := Free | Taken | Locked | IsDir.

Definition kind_of (o : option node) : target_kind :=
  match o with
  | None => Free
  | Some (File false _) => Taken
  | Some (File true _) => Locked
  | Some Dir => IsDir
  end.

(** A path can be written when its directory exists and it names no
    directory and no read-only file. *)
Definition writable (w : world) (fp : string) : bool :=
  let '(d, n) := Fs.split fp in
  match dirs w !! d with
  | Some _ =>
      match kind_of (entry w d n) with
      | Free | Taken => true
      | Locked | IsDir => false
      end
  | None => false
  end.

(** What decides whether a write is refused, and with which error. *)
Inductive write_class := CanWrite | ReadOnly | Directory.

Definition class_of (o : option node) : write_class :=
  match kind_of o with
  | Free | Taken => CanWrite
  | Locked => ReadOnly
  | IsDir => Directory
  end.

(** The world when the crop is attempted: the warning, if any, is out. *)
Definition warned (src : string) (img : image) (w : world) : world :=
  if size_eqb (size img) EXPECTED_SIZE then w else add_line (warn_line src img) w.

(** Names that the discovery sets aside as outputs of an earlier run. *)
Definition cropped_name (n : string) : bool :=
  Str.endswith (Str.lower n) "_cropped.png".

(** The value a computation returns and the lines it prints. *)
Definition value_of {A} (c : M A) (w : world) : exn + A := (c w).1.

Definition printed {A} (c : M A) (w : world) : list string :=
  drop (length (stdout w)) (stdout (c w).2).

(** The error [Image.open] raises on what is not a decodable file. *)
Definition open_error (src : string) (o : option node) : option exn :=
  match o with
  | None => Some (FileNotFoundError src)
  | Some Dir => Some (IsADirectoryError src)
  | Some (File _ Garbage) => Some (UnidentifiedImageError src)
  | Some (File _ (Png _)) => None
  end.

(** Two worlds agree when they have the same directories, the same
    entries under every name that is not an output name, and under every
    name entries that a write treats alike.  Standard output is left out. *)
Record agree (w w' : world) : Prop := Agree {
  agree_dirs : forall d, is_Some (dirs w !! d) <-> is_Some (dirs w' !! d);
  agree_inputs : forall d n, cropped_name n = false -> entry w d n = entry w' d n;
  agree_class : forall d n, class_of (entry w d n) = class_of (entry w' d n)
}.

(** Whether [crop_file] on its own returns a path in a world. *)
Definition succeeds (src : string) (w : world) : bool :=
  match value_of (crop_file src) w with
  | inr r => Str.truthy r
  | inl _ => false
  end.

(** How many of the files [fs] of directory [t] crop successfully, each
    taken on its own in the world [w], and the lines these crops print. *)
Definition tally (t : string) (fs : list string) (w : world) : Z :=
  Z.of_nat (length (List.filter (fun g => succeeds (OsPath.join t g) w) fs)).

Definition report (t : string) (fs : list string) (w : world) : list string :=
  concat (map (fun g => printed (crop_file (OsPath.join t g)) w) fs).

(** The lines of one [crop_file] call: the warning, if the source decodes
    to an unexpected size, then the line that tells how the body ended. *)
Definition pre_lines (src : string) (w : world) : list string :=
  match Fs.lookup w src with
  | Some (File _ (Png img)) =>
      if size_eqb (size img) EXPECTED_SIZE then [] else [warn_line src img]
  | _ => []
  end.

Definition last_line (src : string) (w : world) : string :=
  match value_of (crop_body src (out_path_of src)) w with
  | inl e => error_line src e
  | inr _ => cropped_line src (out_path_of src)
  end.

(** ** A sample directory

    [shots] holds a chart of the expected size, one that is exactly as
    wide as the two side margins, a thumbnail narrower than that, a hidden
    file whose whole name is [.png], a file that is no image, a
    subdirectory with a PNG name, a chart whose output of an earlier run
    is read-only, and some notes. *)

Definition sample_image (w h : Z) : image :=
  Image w h (fun x y => x + 10000 * y).

Definition sample_dir : gmap string node :=
  list_to_map
    [("a.png", File false (Png (sample_image 1920 1080)));
     ("B.PNG", File true (Png (sample_image 480 300)));
     ("B_cropped.png", File false (Png (sample_image 1 1)));
     (".png", File false (Png (sample_image 2000 1000)));
     ("thumb.png", File false (Png (sample_image 100 100)));
     ("z.png", File false Garbage);
     ("sub.png", Dir);
     ("old.png", File false (Png (sample_image 1920 1080)));
     ("old_cropped.png", File true (Png (sample_image 10 10)));
     ("notes.txt", File false Garbage)].

Definition sample_world : world :=
  World {[ "shots" := sample_dir ]} [] (fun p => "/home/u/" +:+ p).

Definition sample_argv : list string := ["batch-crop-usdt-pairs-v2.py"; "shots"].

(** The directory some time after a run: a new chart has arrived, and so
    has a file that carries an output name. *)
Definition sample_world_later : world :=
  Fs.put "shots" "new.png" (File false (Png (sample_image 1920 1080)))
    (Fs.put "shots" "late_cropped.png" (File false (Png (sample_image 1440 850)))
       (run sample_argv sample_world).2).

(** ** Reading the log *)

(** How many of the lines start with a given tag. *)
Definition count_prefix (tag : string) (lines : list string) : nat :=
  length (List.filter (fun l => Str.startswith l tag) lines).

(** The lines a whole run prints. *)
Definition run_lines (argv : list string) (w : world) : list string :=
  drop (length (stdout w)) (stdout (run argv w).2).

(** * Properties *)

(** ** Strings and paths *)
Section StrFacts.

Implicit Types (s t u : string) (c : ascii).

Lemma str_app_nil_l s : "" +:+ s = s.
Proof. reflexivity. Qed.

Lemma str_app_cons c s t : String c s +:+ t = String c (s +:+ t).
Proof. reflexivity. Qed.

Lemma str_app_nil_r s : s +:+ "" = s.
Proof. induction s as [|a s IH]; [done|]. by rewrite str_app_cons, IH. Qed.

Lemma str_app_assoc s t u : (s +:+ t) +:+ u = s +:+ t +:+ u.
Proof. induction s as [|a s IH]; [done|]. by rewrite !str_app_cons, IH. Qed.

Lemma str_length_app s t :
  String.length (s +:+ t) = (String.length s + String.length t)%nat.
Proof. induction s as [|a s IH]; [done|]. rewrite str_app_cons. simpl. by rewrite IH. Qed.

Lemma str_app_inv_tail s t u : s +:+ u = t +:+ u -> s = t.
Proof.
  revert t. induction s as [|a s IH]; intros [|b t] H; try done.
  - apply (f_equal String.length) in H.
    rewrite str_app_nil_l, !str_length_app in H. simpl in H. lia.
  - apply (f_equal String.length) in H.
    rewrite str_app_nil_l, !str_length_app in H. simpl in H. lia.
  - rewrite !str_app_cons in H. injection H as -> H. f_equal. by apply IH.
Qed.

(** [endswith] decides being a suffix. *)
Lemma endswith_spec s suf :
  Str.endswith s suf = true <-> exists p, s = p +:+ suf.
Proof.
  induction s as [|a s IH].
  - change (Str.endswith "" suf) with (String.eqb "" suf || false).
    rewrite orb_false_r, String.eqb_eq. split.
    + intros <-. by exists "".
    + intros [[|b p] H]; [done|]. by rewrite str_app_cons in H.
  - change (Str.endswith (String a s) suf)
      with (String.eqb (String a s) suf || Str.endswith s suf).
    rewrite orb_true_iff, String.eqb_eq, IH. split.
    + intros [<-|[p ->]]; [by exists ""|]. by exists (String a p).
    + intros [[|b p] H]; [by left|]. rewrite str_app_cons in H.
      injection H as -> ->. right. by exists p.
Qed.

Lemma endswith_app s suf : Str.endswith (s +:+ suf) suf = true.
Proof. apply endswith_spec. by exists s. Qed.

Lemma lower_app s t : Str.lower (s +:+ t) = Str.lower s +:+ Str.lower t.
Proof. induction s as [|a s IH]; [done|]. rewrite str_app_cons. simpl. by rewrite IH, str_app_cons. Qed.

Lemma str_take_app s t : Str.take (String.length s) (s +:+ t) = s.
Proof. induction s as [|a s IH]; [by destruct t|]. rewrite str_app_cons. simpl. by rewrite IH. Qed.

Lemma str_drop_app s t : Str.drop (String.length s) (s +:+ t) = t.
Proof. induction s as [|a s IH]; [by destruct t|]. by rewrite str_app_cons. Qed.

Lemma str_take_drop n s : Str.take n s +:+ Str.drop n s = s.
Proof.
  revert s. induction n as [|n IH]; intros [|a s]; try done.
  simpl. by rewrite str_app_cons, IH.
Qed.

Lemma rfind_ge s c : -1 <= Str.rfind s c.
Proof.
  induction s as [|a s IH]; simpl; [lia|].
  destruct (0 <=? Str.rfind s c) eqn:E; [lia|]. destruct (Ascii.eqb a c); lia.
Qed.

Lemma rfind_absent s c : Str.contains c s = false -> Str.rfind s c = -1.
Proof.
  induction s as [|a s IH]; simpl; [done|].
  intros [Ha Hs]%orb_false_iff. by rewrite IH, Ha.
Qed.

(** The last occurrence: nothing after it is the needle. *)
Lemma rfind_last s t c :
  Str.contains c t = false ->
  Str.rfind (s +:+ String c t) c = Z.of_nat (String.length s).
Proof.
  intros Ht. induction s as [|a s IH].
  - rewrite str_app_nil_l. simpl. by rewrite (rfind_absent _ _ Ht), Ascii.eqb_refl.
  - rewrite str_app_cons. simpl Str.rfind. rewrite IH.
    destruct (0 <=? _) eqn:E; [simpl; lia|lia].
Qed.

Lemma rfind_app_absent s t c :
  Str.contains c t = false -> Str.rfind (s +:+ t) c = Str.rfind s c.
Proof.
  intros Ht. induction s as [|a s IH].
  - by rewrite str_app_nil_l, rfind_absent.
  - rewrite str_app_cons. simpl. by rewrite IH.
Qed.

Lemma rfind_found s c :
  0 <= Str.rfind s c ->
  exists a b, s = a +:+ String c b /\ Str.contains c b = false /\
              Str.rfind s c = Z.of_nat (String.length a).
Proof.
  induction s as [|x s IH]; simpl; [lia|].
  destruct (0 <=? Str.rfind s c) eqn:E.
  - intros _. destruct IH as (a & b & -> & Hb & Hi); [lia|].
    exists (String x a), b. rewrite str_app_cons. repeat split; [done|].
    rewrite Hi. simpl. lia.
  - destruct (Ascii.eqb x c) eqn:Ex; [|lia]. intros _.
    apply Ascii.eqb_eq in Ex as ->. exists "", s. repeat split.
    destruct (Str.contains c s) eqn:Hc; [|done].
    exfalso. clear IH. induction s as [|y s IH]; [done|]. simpl in *.
    destruct (0 <=? Str.rfind s c) eqn:E'; [lia|].
    destruct (Ascii.eqb y c) eqn:Ey; [lia|]. simpl in Hc. by apply IH.
Qed.

Lemma rfind_none s c : Str.rfind s c < 0 -> Str.contains c s = false.
Proof.
  induction s as [|x s IH]; simpl; [done|].
  destruct (0 <=? Str.rfind s c) eqn:E; [lia|].
  destruct (Ascii.eqb x c); [lia|]. intros _. apply IH. lia.
Qed.

End StrFacts.

Section PathFacts.

Implicit Types (s t p f : string) (c : ascii).

Lemma contains_rfind s c : Str.contains c s = true -> 0 <= Str.rfind s c.
Proof.
  intros H. destruct (Z_lt_le_dec (Str.rfind s c) 0) as [Hlt|]; [|done].
  apply rfind_none in Hlt. congruence.
Qed.

Lemma rfind_app_present s t c :
  Str.contains c t = true -> Z.of_nat (String.length s) <= Str.rfind (s +:+ t) c.
Proof.
  intros Ht. induction s as [|a s IH].
  - rewrite str_app_nil_l. simpl. by apply contains_rfind.
  - rewrite str_app_cons. simpl Str.rfind.
    destruct (0 <=? _) eqn:E; simpl String.length; lia.
Qed.

Lemma basename_split p : OsPath.basename p = (Fs.split p).2.
Proof.
  unfold OsPath.basename, Fs.split. pose proof (rfind_ge p OsPath.sep).
  destruct (_ <? 0) eqn:E; [|done].
  replace (Str.rfind p OsPath.sep) with (-1) by lia. done.
Qed.

(** Appending text without a separator changes the entry name only. *)
Lemma split_app s t :
  no_sep t -> Fs.split (s +:+ t) = ((Fs.split s).1, (Fs.split s).2 +:+ t).
Proof.
  intros Ht. unfold Fs.split. rewrite (rfind_app_absent _ _ _ Ht).
  destruct (_ <? 0) eqn:E; [done|].
  destruct (rfind_found s OsPath.sep) as (a & b & -> & Hb & Hi); [lia|].
  rewrite Hi, str_app_assoc, str_app_cons. unfold Str.upto, Str.from. simpl.
  rewrite Nat2Z.id, !str_take_app.
  replace (Z.to_nat (Z.of_nat (String.length a) + 1)) with (String.length (a +:+ String OsPath.sep ""))
    by (rewrite str_length_app; simpl; lia).
  replace (a +:+ String OsPath.sep (b +:+ t)) with ((a +:+ String OsPath.sep "") +:+ (b +:+ t))
    by (by rewrite str_app_assoc).
  replace (a +:+ String OsPath.sep b) with ((a +:+ String OsPath.sep "") +:+ b)
    by (by rewrite str_app_assoc).
  by rewrite !str_drop_app.
Qed.

Lemma join_eq t f :
  no_sep f ->
  OsPath.join t f =
    if negb (Str.truthy t) || Str.endswith t "/" then t +:+ f else t +:+ "/" +:+ f.
Proof.
  intros Hf. unfold OsPath.join.
  destruct f as [|a f]; [done|].
  change (Str.startswith (String a f) "/")
    with (Ascii.eqb OsPath.sep a && Str.startswith f "").
  unfold no_sep in Hf.
  change (Str.contains OsPath.sep (String a f))
    with (Ascii.eqb a OsPath.sep || Str.contains OsPath.sep f) in Hf.
  apply orb_false_iff in Hf as [Ha _].
  rewrite Ascii.eqb_sym in Ha. by rewrite Ha.
Qed.

(** A candidate's source path resolves to the target directory and the
    candidate's name. *)
Lemma split_join t f :
  t <> "" -> no_sep f -> Fs.split (OsPath.join t f) = (Fs.dirkey t, f).
Proof.
  intros Ht Hf. rewrite (join_eq _ _ Hf). unfold Fs.dirkey.
  destruct t as [|a t]; [done|]. simpl Str.truthy. simpl negb. rewrite orb_false_l.
  destruct (Str.endswith (String a t) "/") eqn:E.
  - apply endswith_spec in E as [p E]. rewrite E.
    unfold Fs.split. change (p +:+ "/") with (p +:+ String OsPath.sep "").
    rewrite str_app_assoc, str_app_cons, str_app_nil_l, (rfind_last _ _ _ Hf).
    destruct (_ <? 0) eqn:E'; [apply Z.ltb_lt in E'; lia|].
    unfold Str.upto, Str.from. rewrite Nat2Z.id, str_take_app.
    replace (Z.to_nat (Z.of_nat (String.length p) + 1))
      with (String.length (p +:+ String OsPath.sep "")) by (rewrite str_length_app; simpl; lia).
    replace (p +:+ String OsPath.sep f) with ((p +:+ String OsPath.sep "") +:+ f)
      by (by rewrite str_app_assoc).
    rewrite str_drop_app. f_equal.
    replace (Z.to_nat (Z.of_nat (String.length (p +:+ String OsPath.sep "")) - 1))
      with (String.length p) by (rewrite str_length_app; simpl; lia).
    by rewrite str_take_app.
  - unfold Fs.split. change ("/" +:+ f) with (String OsPath.sep f).
    rewrite (rfind_last _ _ _ Hf).
    destruct (_ <? 0) eqn:E'; [apply Z.ltb_lt in E'; lia|].
    unfold Str.upto, Str.from. rewrite Nat2Z.id, str_take_app.
    replace (Z.to_nat (Z.of_nat (String.length (String a t)) + 1))
      with (String.length (String a t +:+ String OsPath.sep "")) by (rewrite str_length_app; simpl; lia).
    replace (String a t +:+ String OsPath.sep f) with ((String a t +:+ String OsPath.sep "") +:+ f)
      by (by rewrite str_app_assoc).
    by rewrite str_drop_app.
Qed.

Lemma basename_join t f : t <> "" -> no_sep f -> OsPath.basename (OsPath.join t f) = f.
Proof. intros. by rewrite basename_split, split_join. Qed.

(** [splitext] cuts the path in two, and the extension holds no
    separator: it is empty or starts at the last dot of the name. *)
Lemma splitext_app p :
  p = (OsPath.splitext p).1 +:+ (OsPath.splitext p).2 /\ no_sep (OsPath.splitext p).2.
Proof.
  unfold OsPath.splitext.
  destruct (_ && _) eqn:E; simpl; [|by rewrite str_app_nil_r].
  apply andb_true_iff in E as [E _]. apply Z.ltb_lt in E.
  split; [by unfold Str.upto, Str.from; rewrite str_take_drop|].
  pose proof (rfind_ge p OsPath.sep).
  destruct (rfind_found p OsPath.extsep) as (a & b & Hp & Hb & Hi); [lia|].
  rewrite Hi. unfold Str.from. rewrite Nat2Z.id, Hp at 1. rewrite str_drop_app.
  unfold no_sep. destruct (Str.contains OsPath.sep (String OsPath.extsep b)) eqn:Hc; [|done].
  pose proof (rfind_app_present a _ _ Hc) as Hge. rewrite <- Hp in Hge. lia.
Qed.

Lemma out_path_eq src : out_path_of src = (OsPath.splitext src).1 +:+ "_cropped.png".
Proof. unfold out_path_of. by destruct (OsPath.splitext src). Qed.

(** The output lies in the directory of its source, under the stem of the
    source's name followed by [_cropped.png]. *)
Lemma split_out_path src :
  let stem := (Fs.split (OsPath.splitext src).1).2 in
  Fs.split src = ((Fs.split src).1, stem +:+ (OsPath.splitext src).2) /\
  Fs.split (out_path_of src) = ((Fs.split src).1, stem +:+ "_cropped.png").
Proof.
  destruct (splitext_app src) as [Hsrc Hext]. simpl.
  rewrite out_path_eq, (split_app _ "_cropped.png"); [|done].
  pose proof (split_app (OsPath.splitext src).1 _ Hext) as H. rewrite <- Hsrc in H.
  by rewrite H.
Qed.

End PathFacts.


(** ** [crop_file], case by case *)
Section CropFile.

Implicit Types (w : world) (src fp : string) (img : image).

Lemma lookup_entry w p : Fs.lookup w p = entry w (Fs.split p).1 (Fs.split p).2.
Proof. unfold Fs.lookup, entry. by destruct (Fs.split p). Qed.

(** [Image.save], by what it finds at the path. *)
Lemma save_eq img fp w :
  PIL.save img fp w =
    let d := (Fs.split fp).1 in
    let n := (Fs.split fp).2 in
    match dirs w !! d with
    | None => (inl (FileNotFoundError fp), w)
    | Some _ =>
        match kind_of (entry w d n) with
        | IsDir => (inl (IsADirectoryError fp), w)
        | Locked => (inl (PermissionError fp), w)
        | Free =>
            if (0 <? width img) && (0 <? height img)
            then (inr (), Fs.put d n (File false (Png img)) w)
            else (inl (SystemError "tile cannot extend outside image"), w)
        | Taken =>
            if (0 <? width img) && (0 <? height img)
            then (inr (), Fs.put d n (File false (Png img)) w)
            else (inl (SystemError "tile cannot extend outside image"),
                  Fs.put d n (File false Garbage) w)
        end
    end.
Proof.
  unfold PIL.save, entry. destruct (Fs.split fp) as [d n]. simpl.
  destruct (dirs w !! d) as [dir|]; [|done].
  by destruct (dir !! n) as [[|[] c]|].
Qed.

Lemma save_is_Exception img fp w e w' :
  PIL.save img fp w = (inl e, w') -> is_Exception e = true.
Proof.
  rewrite save_eq. simpl.
  repeat (match goal with
          | |- context [match ?x with _ => _ end] => destruct x
          end); by intros [= <- <-].
Qed.

(** The body of the [try] on a source that decodes. *)
Lemma crop_body_png src out w ro img :
  Fs.lookup w src = Some (File ro (Png img)) ->
  crop_body src out w =
    if width img <? 480
    then (inl (ValueError "Coordinate 'right' is less than 'left'"), warned src img w)
    else if height img <? 230
    then (inl (ValueError "Coordinate 'lower' is less than 'upper'"), warned src img w)
    else
      match PIL.save (cropped img) out (warned src img w) with
      | (inr _, w2) => (inr out, add_line (cropped_line src out) w2)
      | (inl e, w2) => (inl e, w2)
      end.
Proof.
  intros Hsrc.
  unfold crop_body, bind, PIL.open. rewrite Hsrc.
  replace ((if negb (size_eqb (size img) EXPECTED_SIZE)
            then print (warn_line src img) else ret ()) w)
    with (@inr exn unit (), warned src img w)
    by (unfold warned; by destruct (size_eqb _ _)).
  unfold PIL.crop.
  change (crop_left CROP) with 40. change (crop_top CROP) with 130.
  change (crop_right CROP) with 440. change (crop_bottom CROP) with 100.
  replace (40 + (width img - 40 - 440) <? 40) with (width img <? 480)
    by (apply eq_true_iff_eq; rewrite !Z.ltb_lt; lia).
  replace (130 + (height img - 130 - 100) <? 130) with (height img <? 230)
    by (apply eq_true_iff_eq; rewrite !Z.ltb_lt; lia).
  destruct (width img <? 480); [done|].
  destruct (height img <? 230); [done|].
  unfold ret.
  replace (Image (40 + (width img - 40 - 440) - 40) (130 + (height img - 130 - 100) - 130))
    with (Image (width img - 480) (height img - 230)) by (f_equal; lia).
  fold (cropped img).
  by destruct (PIL.save _ _ _) as [[e|[]] w2].
Qed.

Lemma crop_body_nopng src out w e :
  open_error src (Fs.lookup w src) = Some e ->
  crop_body src out w = (inl e, w).
Proof.
  unfold crop_body, bind, PIL.open, open_error.
  destruct (Fs.lookup w src) as [[|ro [img|]]|]; intros [= <-]; done.
Qed.

Lemma open_error_cases src o :
  (exists ro img, o = Some (File ro (Png img))) \/
  (exists e, open_error src o = Some e /\ is_Exception e = true).
Proof. destruct o as [[|ro [img|]]|]; simpl; eauto. Qed.

(** The body never raises anything but an [Exception], and what it
    returns is the output path. *)
Lemma crop_body_result src out w :
  match crop_body src out w with
  | (inl e, _) => is_Exception e = true
  | (inr r, _) => r = out
  end.
Proof.
  destruct (open_error_cases src (Fs.lookup w src)) as [(ro & img & H)|(e & H & He)].
  - rewrite (crop_body_png _ _ _ _ _ H).
    destruct (_ <? 480); [done|]. destruct (_ <? 230); [done|].
    destruct (PIL.save _ _ _) as [[e|[]] w2] eqn:Hs; [|done].
    by eapply save_is_Exception.
  - by rewrite (crop_body_nopng _ _ _ _ H).
Qed.

(** [crop_file] turns every failure of its body into an error line and
    the empty string. *)
Lemma crop_file_body src w :
  crop_file src w =
    match crop_body src (out_path_of src) w with
    | (inr r, w1) => (inr (out_path_of src), w1)
    | (inl e, w1) => (inr "", add_line (error_line src e) w1)
    end.
Proof.
  unfold crop_file, try_except.
  pose proof (crop_body_result src (out_path_of src) w) as H.
  destruct (crop_body _ _ _) as [[e|r] w1]; [by rewrite H|by rewrite H].
Qed.

End CropFile.

(** ** How the world changes *)
Section WorldFacts.

Implicit Types (w : world) (d n : string) (x : node).

Lemma dirs_add_line l w : dirs (add_line l w) = dirs w.
Proof. done. Qed.

Lemma dirs_warned src img w : dirs (warned src img w) = dirs w.
Proof. unfold warned. by destruct (size_eqb _ _). Qed.

Lemma entry_dirs w w' d n : dirs w = dirs w' -> entry w d n = entry w' d n.
Proof. unfold entry. by intros ->. Qed.

Lemma writable_dirs w w' fp : dirs w = dirs w' -> writable w fp = writable w' fp.
Proof.
  intros H. unfold writable. destruct (Fs.split fp) as [d n].
  by rewrite (entry_dirs _ _ _ _ H), H.
Qed.

Lemma stdout_warned src img w :
  stdout (warned src img w) =
    stdout w ++ (if size_eqb (size img) EXPECTED_SIZE then [] else [warn_line src img]).
Proof. unfold warned. destruct (size_eqb _ _); [by rewrite app_nil_r|done]. Qed.

Lemma stdout_put d n x w : stdout (Fs.put d n x w) = stdout w.
Proof. unfold Fs.put. by destruct (dirs w !! d). Qed.

Lemma abspath_put d n x w : cwd_abspath (Fs.put d n x w) = cwd_abspath w.
Proof. unfold Fs.put. by destruct (dirs w !! d). Qed.

Lemma dirs_put_is_Some d n x w d' :
  is_Some (dirs (Fs.put d n x w) !! d') <-> is_Some (dirs w !! d').
Proof.
  unfold Fs.put. destruct (dirs w !! d) as [dir|] eqn:E; [|done]. simpl.
  destruct (decide (d = d')) as [<-|Hne].
  - rewrite lookup_insert_eq, E. split; eauto.
  - by rewrite lookup_insert_ne.
Qed.

Lemma entry_put_eq d n x w :
  is_Some (dirs w !! d) -> entry (Fs.put d n x w) d n = Some x.
Proof.
  intros [dir E]. unfold entry, Fs.put. rewrite E. simpl.
  by rewrite !lookup_insert_eq.
Qed.

Lemma entry_put_ne d n x w d' n' :
  (d, n) <> (d', n') -> entry (Fs.put d n x w) d' n' = entry w d' n'.
Proof.
  intros Hne. unfold entry, Fs.put.
  destruct (dirs w !! d) as [dir|] eqn:E; [|done]. simpl.
  destruct (decide (d = d')) as [<-|Hd].
  - rewrite lookup_insert_eq, E. rewrite lookup_insert_ne; [done|congruence].
  - by rewrite lookup_insert_ne.
Qed.

Lemma writable_inv w fp :
  writable w fp = true ->
  is_Some (dirs w !! (Fs.split fp).1) /\
  (kind_of (entry w (Fs.split fp).1 (Fs.split fp).2) = Free \/
   kind_of (entry w (Fs.split fp).1 (Fs.split fp).2) = Taken).
Proof.
  unfold writable. destruct (Fs.split fp) as [d n]. simpl.
  destruct (dirs w !! d) as [dir|] eqn:E; [|done].
  destruct (kind_of _); intros; try done; eauto.
Qed.

(** Saving an image that has pixels to a writable path succeeds and
    leaves the image there. *)
Lemma save_ok img fp w :
  writable w fp = true -> 0 < width img -> 0 < height img ->
  PIL.save img fp w =
    (inr (), Fs.put (Fs.split fp).1 (Fs.split fp).2 (File false (Png img)) w).
Proof.
  intros [[dir Hd] Hk]%writable_inv Hw Hh. rewrite save_eq. simpl. rewrite Hd.
  assert ((0 <? width img) && (0 <? height img) = true) as ->.
  { apply andb_true_iff. split; by apply Z.ltb_lt. }
  by destruct Hk as [-> | ->].
Qed.

End WorldFacts.

(** ** Sizes and lines *)
Section Geometry.

Implicit Types (w : world) (src : string) (img : image).

Lemma size_eqb_eq (a b : Z * Z) : size_eqb a b = true <-> a = b.
Proof.
  destruct a as [a1 a2], b as [b1 b2]. unfold size_eqb. simpl.
  rewrite andb_true_iff, !Z.eqb_eq. split; [by intros [-> ->]|by intros [= -> ->]].
Qed.

Lemma warn_not_cropped src img out : warn_line src img <> cropped_line src out.
Proof. unfold warn_line, cropped_line. intros H. by injection H. Qed.

Lemma warn_not_error src img e : warn_line src img <> error_line src e.
Proof. unfold warn_line, error_line. intros H. by injection H. Qed.

Lemma printed_app {A} (c : M A) w lines :
  stdout (c w).2 = stdout w ++ lines -> printed c w = lines.
Proof. intros H. unfold printed. by rewrite H, drop_app_length. Qed.

End Geometry.

(** ** Discovery *)
Section Discovery.

Implicit Types (listing : list string) (f : string).

Lemma is_candidate_spec f :
  is_candidate f = true <->
  Str.endswith (Str.lower f) ".png" = true /\
  Str.endswith (Str.lower f) "_cropped.png" = false.
Proof. unfold is_candidate. rewrite andb_true_iff, negb_true_iff. tauto. Qed.

Lemma candidate_not_cropped f : is_candidate f = true -> cropped_name f = false.
Proof. intros H. by apply is_candidate_spec in H as [_ H]. Qed.

Lemma sorted_perm (l : list string) : sorted l ≡ₚ l.
Proof. apply merge_sort_Permutation. Qed.

Lemma sorted_Sorted (l : list string) : StronglySorted String.le (sorted l).
Proof. apply StronglySorted_merge_sort; apply _. Qed.

Lemma sorted_length (l : list string) : length (sorted l) = length l.
Proof. apply Permutation_length, sorted_perm. Qed.

Lemma in_sorted (l : list string) f : In f (sorted l) <-> In f l.
Proof.
  split; apply Permutation_in; [apply sorted_perm|symmetry; apply sorted_perm].
Qed.

Lemma candidates_perm listing listing' :
  listing ≡ₚ listing' -> candidates listing ≡ₚ candidates listing'.
Proof.
  unfold candidates. induction 1 as [|x l l' _ IH|x y l|l1 l2 l3 _ IH1 _ IH2]; simpl.
  - done.
  - destruct (is_candidate x); [by constructor|done].
  - destruct (is_candidate x), (is_candidate y); try done. apply perm_swap.
  - by etrans.
Qed.

(** The run order depends on the set of entries only, not on the order
    in which the system lists them. *)
Lemma sorted_candidates_perm listing listing' :
  listing ≡ₚ listing' -> sorted (candidates listing) = sorted (candidates listing').
Proof.
  intros H. apply (StronglySorted_unique String.le); try apply sorted_Sorted.
  rewrite !sorted_perm. by apply candidates_perm.
Qed.

Lemma main_on_candidates argv w :
  os_path_isdir (target_of argv) w = true ->
  candidates (os_listdir (target_of argv) w) <> [] ->
  main argv w =
    (processed <- crop_loop (target_of argv)
                    (sorted (candidates (os_listdir (target_of argv) w))) 0 ;;
     where_ <- os_path_abspath (target_of argv) ;;
     print (done_line processed (length (candidates (os_listdir (target_of argv) w)))
              where_)) w.
Proof.
  intros Hd Hc. unfold main. rewrite Hd. simpl.
  by destruct (candidates _).
Qed.

(** C2. The candidates of a listing are exactly its entries whose
    lowercased name ends with [.png] and not with [_cropped.png], each as
    often as it is listed; [main] runs [crop_file] over them in ascending
    lexicographic order, whatever the order of the listing. *)
Theorem discovery_filters_and_sorts listing :
  (forall f, In f (sorted (candidates listing)) <->
             In f listing /\
             Str.endswith (Str.lower f) ".png" = true /\
             Str.endswith (Str.lower f) "_cropped.png" = false) /\
  sorted (candidates listing)
    ≡ₚ List.filter (fun f => Str.endswith (Str.lower f) ".png" &&
                             negb (Str.endswith (Str.lower f) "_cropped.png")) listing /\
  StronglySorted String.le (sorted (candidates listing)) /\
  (forall listing', listing' ≡ₚ listing ->
     sorted (candidates listing') = sorted (candidates listing)) /\
  (forall argv w,
     os_listdir (target_of argv) w = listing ->
     os_path_isdir (target_of argv) w = true ->
     candidates listing <> [] ->
     main argv w =
       (processed <- crop_loop (target_of argv) (sorted (candidates listing)) 0 ;;
        where_ <- os_path_abspath (target_of argv) ;;
        print (done_line processed (length (candidates listing)) where_)) w).
Proof.
  split; [|split; [|split; [|split]]].
  - intros f. rewrite in_sorted. unfold candidates.
    rewrite filter_In, is_candidate_spec. tauto.
  - apply sorted_perm.
  - apply sorted_Sorted.
  - intros listing' H. by apply sorted_candidates_perm.
  - intros argv w <- Hd Hc. by apply main_on_candidates.
Qed.


End Discovery.

(** ** One file's crop leaves the other candidates alone *)
Section Isolation.

Implicit Types (w : world) (src t f : string).

Lemma agree_refl w : agree w w.
Proof. by split. Qed.

Lemma agree_trans w1 w2 w3 : agree w1 w2 -> agree w2 w3 -> agree w1 w3.
Proof.
  intros [A1 B1 C1] [A2 B2 C2]. split.
  - intros d. by rewrite A1.
  - intros d n H. by rewrite B1, B2.
  - intros d n. by rewrite C1.
Qed.

Lemma agree_same_dirs w w' : dirs w = dirs w' -> agree w w'.
Proof.
  intros H. split.
  - intros d. by rewrite H.
  - intros d n _. by apply entry_dirs.
  - intros d n. by rewrite (entry_dirs _ _ _ _ H).
Qed.

Lemma cropped_name_out src : cropped_name (Fs.split (out_path_of src)).2 = true.
Proof.
  destruct (split_out_path src) as [_ ->]. simpl.
  unfold cropped_name. rewrite lower_app. apply endswith_app.
Qed.

(** Writing over a writable output name keeps the worlds in agreement. *)
Lemma agree_put w d n c :
  cropped_name n = true ->
  class_of (entry w d n) = CanWrite ->
  agree w (Fs.put d n (File false c) w).
Proof.
  intros Hn Hk. split.
  - intros d'. by rewrite dirs_put_is_Some.
  - intros d' n' Hn'. rewrite entry_put_ne; [done|]. intros [= -> ->]. congruence.
  - intros d' n'. destruct (decide ((d, n) = (d', n'))) as [[= <- <-]|Hne].
    + destruct (dirs w !! d) as [dir|] eqn:E.
      * rewrite entry_put_eq by eauto. by rewrite Hk.
      * unfold Fs.put. by rewrite E.
    + by rewrite entry_put_ne.
Qed.

Lemma save_agree img fp w :
  cropped_name (Fs.split fp).2 = true -> agree w (PIL.save img fp w).2.
Proof.
  intros Hn. rewrite save_eq. simpl.
  destruct (dirs w !! _); [|apply agree_refl].
  destruct (kind_of _) eqn:Hk; try apply agree_refl.
  - destruct (_ && _); [|apply agree_refl].
    apply agree_put; [done|]. unfold class_of. by rewrite Hk.
  - destruct (_ && _); (apply agree_put; [done|]; unfold class_of; by rewrite Hk).
Qed.

Lemma save_stdout img fp w : stdout (PIL.save img fp w).2 = stdout w.
Proof.
  rewrite save_eq. simpl.
  repeat (match goal with
          | |- context [match ?x with _ => _ end] => destruct x
          end); simpl; by rewrite ?stdout_put.
Qed.

Lemma save_value_agree img fp w w' :
  agree w w' -> (PIL.save img fp w).1 = (PIL.save img fp w').1.
Proof.
  intros [A _ C]. rewrite !save_eq. simpl.
  specialize (A (Fs.split fp).1). specialize (C (Fs.split fp).1 (Fs.split fp).2).
  destruct (dirs w !! _) as [dir|], (dirs w' !! _) as [dir'|]; try done.
  2: { destruct A as [A _]. destruct A as [? [=]]. eauto. }
  2: { destruct A as [_ A]. destruct A as [? [=]]. eauto. }
  unfold class_of in C.
  destruct (kind_of (entry w _ _)), (kind_of (entry w' _ _)); try done;
    by destruct (_ && _).
Qed.

(** The value and the lines of a [crop_file] call. *)
Lemma crop_file_value src w :
  value_of (crop_file src) w =
    match value_of (crop_body src (out_path_of src)) w with
    | inl _ => inr ""
    | inr _ => inr (out_path_of src)
    end.
Proof.
  unfold value_of. rewrite crop_file_body.
  by destruct (crop_body _ _ _) as [[e|r] w1].
Qed.

Lemma crop_file_lines src w :
  stdout (crop_file src w).2 = stdout w ++ pre_lines src w ++ [last_line src w].
Proof.
  unfold last_line, pre_lines, value_of. rewrite crop_file_body.
  destruct (open_error_cases src (Fs.lookup w src)) as [(ro & img & H)|(e & H & He)].
  - rewrite (crop_body_png _ _ _ _ _ H), H.
    destruct (_ <? 480); [simpl; by rewrite stdout_warned, <- app_assoc|].
    destruct (_ <? 230); [simpl; by rewrite stdout_warned, <- app_assoc|].
    pose proof (save_stdout (cropped img) (out_path_of src) (warned src img w)) as Hs.
    destruct (PIL.save _ _ _) as [[e|[]] w2]; simpl in *;
      by rewrite Hs, stdout_warned, <- app_assoc.
  - rewrite (crop_body_nopng _ _ _ _ H). simpl.
    by destruct (Fs.lookup w src) as [[|ro [img|]]|].
Qed.

Lemma printed_crop_file src w :
  printed (crop_file src) w = pre_lines src w ++ [last_line src w].
Proof. apply printed_app, crop_file_lines. Qed.

(** In agreeing worlds the body of the [try] ends alike on a source
    that is not itself an output name. *)
Lemma crop_body_agree src w w' :
  agree w w' -> cropped_name (Fs.split src).2 = false ->
  Fs.lookup w src = Fs.lookup w' src /\
  value_of (crop_body src (out_path_of src)) w =
    value_of (crop_body src (out_path_of src)) w'.
Proof.
  intros Ha Hn.
  assert (Fs.lookup w src = Fs.lookup w' src) as Hl.
  { rewrite !lookup_entry. by apply Ha. }
  split; [done|]. unfold value_of.
  destruct (open_error_cases src (Fs.lookup w src)) as [(ro & img & H)|(e & H & He)].
  - rewrite (crop_body_png _ _ _ _ _ H).
    rewrite Hl in H. rewrite (crop_body_png _ _ _ _ _ H).
    destruct (_ <? 480); [done|]. destruct (_ <? 230); [done|].
    assert (agree (warned src img w) (warned src img w')) as Ha'.
    { apply (agree_trans _ w); [apply agree_same_dirs; by rewrite dirs_warned|].
      apply (agree_trans _ w'); [done|apply agree_same_dirs; by rewrite dirs_warned]. }
    pose proof (save_value_agree (cropped img) (out_path_of src) _ _ Ha') as Hv.
    destruct (PIL.save _ _ (warned src img w)) as [[e|[]] w2],
             (PIL.save _ _ (warned src img w')) as [[e'|[]] w2'];
      simpl in *; congruence.
  - rewrite (crop_body_nopng _ _ _ _ H).
    rewrite Hl in H. by rewrite (crop_body_nopng _ _ _ _ H).
Qed.

Lemma crop_file_agree_eq src w w' :
  agree w w' -> cropped_name (Fs.split src).2 = false ->
  value_of (crop_file src) w = value_of (crop_file src) w' /\
  printed (crop_file src) w = printed (crop_file src) w'.
Proof.
  intros Ha Hn. destruct (crop_body_agree _ _ _ Ha Hn) as [Hl Hv].
  rewrite !crop_file_value, !printed_crop_file.
  unfold pre_lines, last_line. by rewrite Hl, Hv.
Qed.

Lemma crop_file_agree src w : agree w (crop_file src w).2.
Proof.
  rewrite crop_file_body.
  destruct (open_error_cases src (Fs.lookup w src)) as [(ro & img & H)|(e & H & He)].
  - rewrite (crop_body_png _ _ _ _ _ H).
    assert (agree w (warned src img w)) as Hw
      by (apply agree_same_dirs; by rewrite dirs_warned).
    destruct (_ <? 480); [by apply (agree_trans _ _ _ Hw), agree_same_dirs|].
    destruct (_ <? 230); [by apply (agree_trans _ _ _ Hw), agree_same_dirs|].
    pose proof (save_agree (cropped img) (out_path_of src) (warned src img w)
                  (cropped_name_out src)) as Hs.
    destruct (PIL.save _ _ _) as [[e|[]] w2]; simpl in *;
      apply (agree_trans _ _ _ Hw), (agree_trans _ _ _ Hs); by apply agree_same_dirs.
  - rewrite (crop_body_nopng _ _ _ _ H). by apply agree_same_dirs.
Qed.

End Isolation.

(** ** The batch loop *)
Section Batch.

Implicit Types (w : world) (t f : string) (fs : list string) (p : Z).

Lemma crop_file_returns src w :
  exists r w', crop_file src w = (inr r, w') /\ (r = "" \/ r = out_path_of src).
Proof.
  rewrite crop_file_body. destruct (crop_body _ _ _) as [[e|r] w1]; eauto.
Qed.

Lemma save_abspath img fp w : cwd_abspath (PIL.save img fp w).2 = cwd_abspath w.
Proof.
  rewrite save_eq. simpl.
  repeat (match goal with
          | |- context [match ?x with _ => _ end] => destruct x
          end); simpl; by rewrite ?abspath_put.
Qed.

Lemma crop_file_abspath src w : cwd_abspath (crop_file src w).2 = cwd_abspath w.
Proof.
  rewrite crop_file_body.
  destruct (open_error_cases src (Fs.lookup w src)) as [(ro & img & H)|(e & H & He)].
  - rewrite (crop_body_png _ _ _ _ _ H).
    assert (cwd_abspath (warned src img w) = cwd_abspath w) as Hw
      by (unfold warned; by destruct (size_eqb _ _)).
    destruct (_ <? 480); [done|]. destruct (_ <? 230); [done|].
    pose proof (save_abspath (cropped img) (out_path_of src) (warned src img w)) as Hs.
    destruct (PIL.save _ _ _) as [[e|[]] w2]; simpl in *; congruence.
  - by rewrite (crop_body_nopng _ _ _ _ H).
Qed.

(** One turn of the loop: the counter goes up by one exactly when
    [crop_file] returned a non-empty string. *)
Lemma crop_loop_cons t f fs p w :
  exists r w1,
    crop_file (OsPath.join t f) w = (inr r, w1) /\
    crop_loop t (f :: fs) p w =
      crop_loop t fs (if Str.truthy r then p + 1 else p) w1.
Proof.
  destruct (crop_file_returns (OsPath.join t f) w) as (r & w1 & H & _).
  exists r, w1. split; [done|]. simpl. unfold bind. by rewrite H.
Qed.

(** The loop always runs to its end, and the counter grows by at most
    the number of files. *)
Lemma crop_loop_total t fs p w :
  exists p' w',
    crop_loop t fs p w = (inr p', w') /\ p <= p' <= p + Z.of_nat (length fs) /\
    agree w w' /\ cwd_abspath w' = cwd_abspath w.
Proof.
  revert p w. induction fs as [|f fs IH]; intros p w.
  - exists p, w. split; [done|]. simpl. split; [lia|]. split; [apply agree_refl|done].
  - destruct (crop_loop_cons t f fs p w) as (r & w1 & Hrun & ->).
    destruct (IH (if Str.truthy r then p + 1 else p) w1) as (p' & w' & -> & Hp & Ha & Habs).
    pose proof (crop_file_agree (OsPath.join t f) w) as Ha1.
    pose proof (crop_file_abspath (OsPath.join t f) w) as Habs1.
    rewrite Hrun in Ha1, Habs1. simpl in Ha1, Habs1.
    exists p', w'. split; [done|]. split; [|split].
    + simpl length. destruct (Str.truthy r); lia.
    + by apply (agree_trans _ w1).
    + congruence.
Qed.

Lemma crop_loop_app t fs1 fs2 p w :
  crop_loop t (fs1 ++ fs2) p w =
    match crop_loop t fs1 p w with
    | (inr p', w') => crop_loop t fs2 p' w'
    | (inl e, w') => (inl e, w')
    end.
Proof.
  revert p w. induction fs1 as [|f fs1 IH]; intros p w; [done|].
  simpl. unfold bind. destruct (crop_file _ w) as [[e|r] w1]; [done|]. apply IH.
Qed.

(** Every file of the batch fares as it would on its own in the world
    the batch started in. *)
Lemma crop_loop_isolated t fs p w0 w :
  t <> "" ->
  Forall (fun g => no_sep g /\ cropped_name g = false) fs ->
  agree w0 w ->
  exists w',
    crop_loop t fs p w = (inr (p + tally t fs w0), w') /\
    agree w0 w' /\
    stdout w' = stdout w ++ report t fs w0 /\
    cwd_abspath w' = cwd_abspath w.
Proof.
  intros Ht Hfs. revert p w.
  induction Hfs as [|f fs [Hsep Hname] _ IH]; intros p w Ha.
  - exists w. unfold tally, report. simpl. rewrite Z.add_0_r, app_nil_r. done.
  - destruct (crop_loop_cons t f fs p w) as (r & w1 & Hrun & ->).
    assert (cropped_name (Fs.split (OsPath.join t f)).2 = false) as Hn
      by (by rewrite split_join).
    destruct (crop_file_agree_eq _ _ _ Ha Hn) as [Hv Hp].
    assert (agree w0 w1) as Ha1.
    { apply (agree_trans _ _ _ Ha).
      pose proof (crop_file_agree (OsPath.join t f) w) as H. by rewrite Hrun in H. }
    destruct (IH (if Str.truthy r then p + 1 else p) w1 Ha1) as (w' & -> & Ha' & Hout & Habs).
    exists w'. split; [|split; [done|split]].
    + assert (succeeds (OsPath.join t f) w0 = Str.truthy r) as Hs.
      { unfold succeeds. rewrite Hv. unfold value_of. by rewrite Hrun. }
      f_equal. f_equal. unfold tally. simpl List.filter. rewrite Hs.
      destruct (Str.truthy r); simpl length; lia.
    + rewrite Hout. unfold report. simpl concat. rewrite Hp, app_assoc. f_equal.
      pose proof (crop_file_lines (OsPath.join t f) w) as Hl.
      rewrite Hrun in Hl. simpl in Hl. by rewrite Hl, printed_crop_file.
    + rewrite Habs. pose proof (crop_file_abspath (OsPath.join t f) w) as H.
      by rewrite Hrun in H.
Qed.

End Batch.

(** ** The crop itself *)
Section Crop.

Implicit Types (w : world) (src : string) (img : image).

(** C1. For a source that decodes to an image wider than 40+440 and
    taller than 130+100, the image [crop_file] hands to [Image.save] is the
    [(W-480) x (H-230)] region whose pixel [(x, y)] is the source's pixel
    [(x+40, y+130)], so 1440x850 for a 1920x1080 source; the warning line
    is printed if and only if the source's size is not [(1920, 1080)]; and
    when the output path can be written, [crop_file] returns it and the
    file there holds that region. *)
Theorem crop_file_removes_margins src w ro img :
  Fs.lookup w src = Some (File ro (Png img)) ->
  crop_left CROP + crop_right CROP < width img ->
  crop_top CROP + crop_bottom CROP < height img ->
  exists out,
    size out = (width img - 480, height img - 230) /\
    (forall x y, 0 <= x < width out -> 0 <= y < height out ->
                 getpixel out x y = getpixel img (x + 40) (y + 130)) /\
    (size img = (1920, 1080) -> size out = (1440, 850)) /\
    crop_body src (out_path_of src) w =
      match PIL.save out (out_path_of src) (warned src img w) with
      | (inr _, w2) =>
          (inr (out_path_of src), add_line (cropped_line src (out_path_of src)) w2)
      | (inl e, w2) => (inl e, w2)
      end /\
    (In (warn_line src img) (printed (crop_file src) w) <-> size img <> (1920, 1080)) /\
    (writable w (out_path_of src) = true ->
     exists w',
       crop_file src w = (inr (out_path_of src), w') /\
       Fs.lookup w' (out_path_of src) = Some (File false (Png out)) /\
       stdout w' =
         stdout w ++ (if size_eqb (size img) (1920, 1080) then [] else [warn_line src img])
                  ++ [cropped_line src (out_path_of src)]).
Proof.
  change (crop_left CROP + crop_right CROP) with 480.
  change (crop_top CROP + crop_bottom CROP) with 230.
  intros Hsrc HW HH.
  assert (crop_body src (out_path_of src) w =
          match PIL.save (cropped img) (out_path_of src) (warned src img w) with
          | (inr _, w2) =>
              (inr (out_path_of src), add_line (cropped_line src (out_path_of src)) w2)
          | (inl e, w2) => (inl e, w2)
          end) as Hbody.
  { rewrite (crop_body_png _ _ _ _ _ Hsrc).
    destruct (Z.ltb_spec (width img) 480); [lia|].
    by destruct (Z.ltb_spec (height img) 230); [lia|]. }
  exists (cropped img). split; [done|]. split; [|split; [|split; [done|split]]].
  - intros x y Hx Hy. simpl in *. unfold PIL.inside.
    destruct (Z.leb_spec 0 (x + 40)); [|lia].
    destruct (Z.ltb_spec (x + 40) (width img)); [|lia].
    destruct (Z.leb_spec 0 (y + 130)); [|lia].
    destruct (Z.ltb_spec (y + 130) (height img)); [|lia]. done.
  - intros [= HW' HH']. unfold size. simpl. by rewrite HW', HH'.
  - rewrite printed_crop_file. unfold pre_lines. rewrite Hsrc.
    assert (warn_line src img <> last_line src w) as Hlast.
    { unfold last_line. destruct (value_of _ _);
        [apply warn_not_error|apply warn_not_cropped]. }
    change EXPECTED_SIZE with (1920, 1080).
    destruct (size_eqb _ _) eqn:E.
    + apply size_eqb_eq in E. split; [|done]. intros [H|[]]. by symmetry in H.
    + split; [|intros _; by left]. intros _ H. apply size_eqb_eq in H. congruence.
  - intros Hwr.
    assert (writable (warned src img w) (out_path_of src) = true) as Hwr'.
    { by rewrite (writable_dirs _ w) by apply dirs_warned. }
    pose proof (save_ok (cropped img) _ _ Hwr') as Hsave.
    simpl in Hsave. specialize (Hsave ltac:(lia) ltac:(lia)).
    rewrite Hsave in Hbody. eexists. rewrite crop_file_body, Hbody.
    split; [done|]. split.
    + rewrite lookup_entry, (entry_dirs _ _ _ _ (dirs_add_line _ _)).
      apply entry_put_eq. rewrite dirs_warned. by apply (writable_inv _ _ Hwr).
    + simpl. by rewrite stdout_put, stdout_warned, <- app_assoc.
Qed.

End Crop.

(** ** [main] and the exit status *)
Section Main.

Implicit Types (w : world) (argv : list string).

Lemma main_not_dir argv w :
  os_path_isdir (target_of argv) w = false ->
  main argv w =
    (inl (SystemExit 1),
     add_line ("ERROR: target is not a directory: " +:+ target_of argv) w).
Proof. intros H. unfold main. by rewrite H. Qed.

Lemma main_nothing argv w :
  os_path_isdir (target_of argv) w = true ->
  candidates (os_listdir (target_of argv) w) = [] ->
  main argv w =
    (inl (SystemExit 0),
     add_line "INFO: No PNG files to process in target directory." w).
Proof. intros H Hc. unfold main. by rewrite H, Hc. Qed.

(** A run over a non-empty candidate list ends with the summary line
    and returns. *)
Lemma main_batch argv w :
  os_path_isdir (target_of argv) w = true ->
  candidates (os_listdir (target_of argv) w) <> [] ->
  exists p w1,
    crop_loop (target_of argv) (sorted (candidates (os_listdir (target_of argv) w))) 0 w
      = (inr p, w1) /\
    main argv w =
      (inr (), add_line (done_line p (length (candidates (os_listdir (target_of argv) w)))
                           (cwd_abspath w (target_of argv))) w1) /\
    0 <= p <= Z.of_nat (length (candidates (os_listdir (target_of argv) w))) /\
    agree w w1.
Proof.
  intros Hd Hc. rewrite (main_on_candidates _ _ Hd Hc).
  destruct (crop_loop_total (target_of argv)
              (sorted (candidates (os_listdir (target_of argv) w))) 0 w)
    as (p & w1 & Hrun & Hp & Ha & Habs).
  exists p, w1. split; [done|]. unfold bind, os_path_abspath. rewrite Hrun.
  rewrite sorted_length in Hp. split; [|split; [lia|done]].
  unfold print, add_line. by rewrite Habs.
Qed.

Lemma isdir_target_nonempty t w : os_path_isdir t w = true -> t <> "".
Proof. unfold os_path_isdir, Fs.lookup_dir. by destruct t. Qed.



End Main.

(** ** The success tally *)
Section Tally.

Implicit Types (w : world) (argv : list string).

(** C10. At every point of the loop over the sorted candidates, with
    [seen] behind and [rest] ahead, the counter lies between 0 and the
    number of files seen, hence below the number of candidates; the next
    file adds one exactly when [crop_file] returns a non-empty string;
    and the summary line of a run reports a count between 0 and the
    total. *)
Theorem tally_invariant argv w (seen rest : list string) :
  let t := target_of argv in
  let files := candidates (os_listdir t w) in
  sorted files = seen ++ rest ->
  exists p w1,
    crop_loop t seen 0 w = (inr p, w1) /\
    0 <= p <= Z.of_nat (length seen) /\
    (length seen <= length files)%nat /\
    (forall f rest', rest = f :: rest' ->
       exists r w2,
         crop_file (OsPath.join t f) w1 = (inr r, w2) /\
         crop_loop t (seen ++ [f]) 0 w =
           (inr (if Str.truthy r then p + 1 else p), w2)) /\
    (os_path_isdir t w = true -> files <> [] ->
       exists s w',
         crop_loop t (sorted files) 0 w = (inr s, w') /\
         main argv w =
           (inr (), add_line (done_line s (length files) (cwd_abspath w t)) w') /\
         0 <= s <= Z.of_nat (length files)).
Proof.
  intros t files Hsplit.
  destruct (crop_loop_total t seen 0 w) as (p & w1 & Hrun & Hp & _).
  exists p, w1. split; [done|]. split; [lia|]. split; [|split].
  - rewrite <- (sorted_length files), Hsplit, length_app. lia.
  - intros f rest' ->.
    destruct (crop_loop_cons t f [] p w1) as (r & w2 & Hf & Hstep).
    exists r, w2. split; [done|]. by rewrite crop_loop_app, Hrun, Hstep.
  - intros Hd Hc. destruct (main_batch argv w Hd Hc) as (s & w' & Hl & Hm & Hs & _).
    exists s, w'. done.
Qed.

End Tally.

(** ** Failures stay with their file *)
Section Failures.

Implicit Types (w : world) (argv : list string) (t f : string).

(** An image without pixels is never written, and the attempt leaves no
    decodable file that was not there before. *)
Lemma save_empty img fp w :
  width img <= 0 \/ height img <= 0 ->
  exists e w',
    PIL.save img fp w = (inl e, w') /\
    forall d n ro i, entry w' d n = Some (File ro (Png i)) ->
                     entry w d n = Some (File ro (Png i)).
Proof.
  intros Hsz. rewrite save_eq. simpl.
  assert ((0 <? width img) && (0 <? height img) = false) as ->.
  { apply andb_false_iff. rewrite !Z.ltb_ge. lia. }
  destruct (dirs w !! _) as [dir|] eqn:Hd; [|by eauto].
  destruct (kind_of _); try by eauto.
  eexists _, _. split; [done|]. intros d n ro i.
  destruct (decide (((Fs.split fp).1, (Fs.split fp).2) = (d, n))) as [[= <- <-]|Hne].
  - rewrite entry_put_eq by eauto. done.
  - by rewrite entry_put_ne.
Qed.

(** The crop of an image at most 480 wide or at most 230 high fails in
    the body of the [try]. *)
Lemma crop_body_degenerate src out w ro img :
  Fs.lookup w src = Some (File ro (Png img)) ->
  width img <= 480 \/ height img <= 230 ->
  exists e w1,
    crop_body src out w = (inl e, w1) /\
    forall d n ro' i, entry w1 d n = Some (File ro' (Png i)) ->
                      entry w d n = Some (File ro' (Png i)).
Proof.
  intros Hsrc Hsz. rewrite (crop_body_png _ _ _ _ _ Hsrc).
  assert (forall d n, entry (warned src img w) d n = entry w d n) as Hw
    by (intros; apply entry_dirs, dirs_warned).
  destruct (Z.ltb_spec (width img) 480) as [HW|HW].
  { eexists _, _. split; [done|]. intros d n ro' i. by rewrite Hw. }
  destruct (Z.ltb_spec (height img) 230) as [HH|HH].
  { eexists _, _. split; [done|]. intros d n ro' i. by rewrite Hw. }
  destruct (save_empty (cropped img) out (warned src img w)) as (e & w1 & -> & Hkeep).
  { simpl. lia. }
  exists e, w1. split; [done|]. intros d n ro' i H. rewrite <- Hw. by apply Hkeep.
Qed.

Lemma candidates_Forall listing :
  Forall no_sep listing ->
  Forall (fun g => no_sep g /\ cropped_name g = false) (sorted (candidates listing)).
Proof.
  intros Hsep. apply Forall_forall. intros g Hg.
  apply list_elem_of_In, in_sorted, filter_In in Hg as [Hin Hc].
  split; [|by apply candidate_not_cropped].
  rewrite Forall_forall in Hsep. by apply Hsep, list_elem_of_In.
Qed.

(** A whole run, file by file: the lines are those of every candidate
    taken on its own, in sorted order, then the summary with the number
    of candidates that succeed on their own. *)
Lemma run_batch argv w :
  os_path_isdir (target_of argv) w = true ->
  Forall no_sep (os_listdir (target_of argv) w) ->
  candidates (os_listdir (target_of argv) w) <> [] ->
  exists w',
    run argv w = (0, w') /\
    agree w w' /\
    stdout w' =
      stdout w ++
      report (target_of argv) (sorted (candidates (os_listdir (target_of argv) w))) w ++
      [done_line (tally (target_of argv)
                    (sorted (candidates (os_listdir (target_of argv) w))) w)
         (length (candidates (os_listdir (target_of argv) w)))
         (cwd_abspath w (target_of argv))].
Proof.
  intros Hd Hsep Hc.
  destruct (main_batch argv w Hd Hc) as (p & w1 & Hl & Hm & _ & _).
  destruct (crop_loop_isolated (target_of argv) _ 0 w w
              (isdir_target_nonempty _ _ Hd) (candidates_Forall _ Hsep) (agree_refl w))
    as (w1' & Hl' & Ha & Hout & _).
  rewrite Hl in Hl'. injection Hl' as -> <-.
  exists (add_line (done_line (0 + tally (target_of argv)
                                     (sorted (candidates (os_listdir (target_of argv) w))) w)
                      (length (candidates (os_listdir (target_of argv) w)))
                      (cwd_abspath w (target_of argv))) w1).
  split; [unfold run; by rewrite Hm|]. split.
  - apply (agree_trans _ _ _ Ha). by apply agree_same_dirs.
  - simpl. by rewrite Hout, <- app_assoc.
Qed.

(** C3. A candidate that decodes to an image at most 480 wide or at
    most 230 high makes [crop_file] return the empty string with an error
    line, without leaving a decodable file that was not there before; the
    run still handles every candidate, counts the others in its summary
    and exits with status 0. *)
Theorem degenerate_crop_fails argv w f ro img :
  let t := target_of argv in
  let files := candidates (os_listdir t w) in
  os_path_isdir t w = true ->
  Forall no_sep (os_listdir t w) ->
  In f files ->
  Fs.lookup w (OsPath.join t f) = Some (File ro (Png img)) ->
  width img <= 480 \/ height img <= 230 ->
  exists e w1 w',
    crop_file (OsPath.join t f) w =
      (inr "", add_line ("ERROR: " +:+ f +:+ " failed: " +:+ str_of_exn e) w1) /\
    (forall d n ro' i, entry w1 d n = Some (File ro' (Png i)) ->
                       entry w d n = Some (File ro' (Png i))) /\
    succeeds (OsPath.join t f) w = false /\
    run argv w = (0, w') /\
    stdout w' =
      stdout w ++ report t (sorted files) w ++
      [done_line (tally t (sorted files) w) (length files) (cwd_abspath w t)] /\
    In ("ERROR: " +:+ f +:+ " failed: " +:+ str_of_exn e) (report t (sorted files) w) /\
    tally t (sorted files) w
      = tally t (List.filter (fun g => negb (String.eqb g f)) (sorted files)) w.
Proof.
  intros t files Hd Hsep Hin Hsrc Hsz.
  destruct (crop_body_degenerate _ (out_path_of (OsPath.join t f)) _ _ _ Hsrc Hsz)
    as (e & w1 & Hbody & Hkeep).
  assert (no_sep f) as Hf.
  { rewrite Forall_forall in Hsep. apply Hsep, list_elem_of_In.
    unfold files, candidates in Hin. by apply filter_In in Hin as [? _]. }
  assert (error_line (OsPath.join t f) e = "ERROR: " +:+ f +:+ " failed: " +:+ str_of_exn e)
    as Hline.
  { unfold error_line. rewrite basename_join; [done| |done].
    by apply (isdir_target_nonempty _ w). }
  assert (crop_file (OsPath.join t f) w =
          (inr "", add_line ("ERROR: " +:+ f +:+ " failed: " +:+ str_of_exn e) w1)) as Hrun
    by (by rewrite crop_file_body, Hbody, Hline).
  assert (succeeds (OsPath.join t f) w = false) as Hfail
    by (unfold succeeds, value_of; by rewrite Hrun).
  destruct (run_batch argv w Hd Hsep) as (w' & Hr & _ & Hout).
  { intros Hnil. fold t files in Hnil. by rewrite Hnil in Hin. }
  exists e, w1, w'. do 5 (split; [done|]). split.
  - unfold report. apply in_concat.
    exists (printed (crop_file (OsPath.join t f)) w). split.
    + apply in_map_iff. exists f. split; [done|]. by apply in_sorted.
    + rewrite printed_crop_file. apply in_or_app. right. left.
      unfold last_line, value_of. by rewrite Hbody.
  - unfold tally. f_equal. f_equal.
    induction (sorted files) as [|g l IH]; [done|]. simpl.
    destruct (String.eqb_spec g f) as [->|Hne]; simpl.
    + by rewrite Hfail.
    + destruct (succeeds _ _); simpl; by rewrite IH.
Qed.

(** C4. When the body of the [try] raises on a file, for whatever
    reason, [crop_file] prints the error line with the file's name and
    the reason and returns the empty string; the loop goes on, and every
    remaining candidate is counted and reported as it would be on its own
    in the world before the failure. *)
Theorem failure_is_caught_per_file t f rest p w e w1 :
  t <> "" ->
  no_sep f ->
  Forall (fun g => no_sep g /\ is_candidate g = true) rest ->
  crop_body (OsPath.join t f) (out_path_of (OsPath.join t f)) w = (inl e, w1) ->
  crop_file (OsPath.join t f) w =
    (inr "", add_line ("ERROR: " +:+ f +:+ " failed: " +:+ str_of_exn e) w1) /\
  exists w',
    crop_loop t (f :: rest) p w = (inr (p + tally t rest w), w') /\
    stdout w' =
      stdout w1 ++ ["ERROR: " +:+ f +:+ " failed: " +:+ str_of_exn e] ++ report t rest w.
Proof.
  intros Ht Hf Hrest Hbody.
  assert (crop_file (OsPath.join t f) w =
          (inr "", add_line ("ERROR: " +:+ f +:+ " failed: " +:+ str_of_exn e) w1)) as Hrun.
  { rewrite crop_file_body, Hbody. unfold error_line. by rewrite basename_join. }
  split; [done|].
  destruct (crop_loop_cons t f rest p w) as (r & w2 & Hrun' & ->).
  rewrite Hrun in Hrun'. injection Hrun' as <- <-. simpl Str.truthy. cbv iota.
  pose proof (crop_file_agree (OsPath.join t f) w) as Ha. rewrite Hrun in Ha.
  simpl in Ha.
  assert (Forall (fun g => no_sep g /\ cropped_name g = false) rest) as Hrest'.
  { eapply Forall_impl; [done|]. intros g [? ?]. split; [done|].
    by apply candidate_not_cropped. }
  destruct (crop_loop_isolated t rest p w _ Ht Hrest' Ha) as (w' & Hl & _ & Hout & _).
  exists w'. split; [done|]. rewrite Hout. simpl. by rewrite <- app_assoc.
Qed.

End Failures.

(** ** Where the output goes *)
Section Output.

Implicit Types (w : world) (src stem e : string).

Lemma basename_decomp p :
  exists pre, p = pre +:+ OsPath.basename p /\
              Z.of_nat (String.length pre) = Str.rfind p OsPath.sep + 1.
Proof.
  unfold OsPath.basename. pose proof (rfind_ge p OsPath.sep) as Hge.
  destruct (Z_lt_le_dec (Str.rfind p OsPath.sep) 0) as [Hlt|Hle].
  - exists "". replace (Str.rfind p OsPath.sep) with (-1) by lia. done.
  - destruct (rfind_found p OsPath.sep Hle) as (a & b & Hp & Hb & Hi).
    exists (a +:+ String OsPath.sep ""). rewrite Hi. split.
    + unfold Str.from.
      replace (Z.to_nat (Z.of_nat (String.length a) + 1))
        with (String.length (a +:+ String OsPath.sep ""))
        by (rewrite str_length_app; simpl; lia).
      rewrite Hp at 2.
      replace (a +:+ String OsPath.sep b) with ((a +:+ String OsPath.sep "") +:+ b)
        by (by rewrite str_app_assoc).
      rewrite str_drop_app. by rewrite str_app_assoc.
    + rewrite str_length_app. simpl. lia.
Qed.

(** On a name with a stem that is not all dots, [splitext] cuts at the
    last dot. *)
Lemma splitext_regular src stem e :
  OsPath.basename src = stem +:+ String "." e ->
  Str.contains "." e = false ->
  OsPath.has_non_dot stem = true ->
  (OsPath.splitext src).2 = String "." e.
Proof.
  intros Hname He Hstem.
  destruct (basename_decomp src) as (pre & Hsrc & Hpre). rewrite Hname in Hsrc.
  assert (src = (pre +:+ stem) +:+ String OsPath.extsep e) as Hsrc'
    by (by rewrite str_app_assoc).
  assert (Str.rfind src OsPath.extsep = Z.of_nat (String.length (pre +:+ stem))) as Hdot
    by (rewrite Hsrc' at 1; by apply rfind_last).
  unfold OsPath.splitext. rewrite Hdot.
  assert (Str.slice (Str.rfind src OsPath.sep + 1)
            (Z.of_nat (String.length (pre +:+ stem))) src = stem) as ->.
  { unfold Str.slice, Str.upto, Str.from. rewrite <- Hpre, Nat2Z.id.
    rewrite Hsrc at 1. rewrite str_drop_app.
    replace (Z.to_nat _) with (String.length stem)
      by (rewrite str_length_app; lia).
    apply str_take_app. }
  rewrite Hstem, andb_true_r.
  destruct (Z.ltb_spec (Str.rfind src OsPath.sep) (Z.of_nat (String.length (pre +:+ stem))))
    as [_|Hge]; [|rewrite str_length_app in Hge; lia].
  simpl. unfold Str.from. rewrite Nat2Z.id. rewrite Hsrc' at 1. apply str_drop_app.
Qed.

Lemma save_success img fp w w2 :
  PIL.save img fp w = (inr (), w2) ->
  w2 = Fs.put (Fs.split fp).1 (Fs.split fp).2 (File false (Png img)) w /\
  is_Some (dirs w !! (Fs.split fp).1).
Proof.
  rewrite save_eq. simpl. destruct (dirs w !! _) as [dir|]; [|done].
  destruct (kind_of _); try done; destruct (_ && _); try done;
    intros [= <-]; eauto.
Qed.

(** What a successful [crop_file] leaves behind. *)
Lemma crop_file_success src w r w' :
  crop_file src w = (inr r, w') -> r <> "" ->
  r = out_path_of src /\
  exists ro img,
    Fs.lookup w src = Some (File ro (Png img)) /\
    w' = add_line (cropped_line src (out_path_of src))
           (Fs.put (Fs.split (out_path_of src)).1 (Fs.split (out_path_of src)).2
              (File false (Png (cropped img))) (warned src img w)) /\
    is_Some (dirs w !! (Fs.split (out_path_of src)).1).
Proof.
  rewrite crop_file_body. intros Hrun Hr.
  destruct (open_error_cases src (Fs.lookup w src)) as [(ro & img & H)|(e & H & He)].
  - rewrite (crop_body_png _ _ _ _ _ H) in Hrun.
    destruct (_ <? 480); [by injection Hrun as <- <-|].
    destruct (_ <? 230); [by injection Hrun as <- <-|].
    destruct (PIL.save _ _ _) as [[e|[]] w2] eqn:Hs; [by injection Hrun as <- <-|].
    injection Hrun as <- <-. split; [done|]. exists ro, img. split; [done|].
    apply save_success in Hs as [-> Hd]. by rewrite dirs_warned in Hd.
  - rewrite (crop_body_nopng _ _ _ _ H) in Hrun. by injection Hrun as <- <-.
Qed.


End Output.

(** ** Running twice *)
Section Rerun.

Implicit Types (w : world) (argv : list string) (t : string).

Lemma in_listdir t w x :
  In x (os_listdir t w) <-> t <> "" /\ is_Some (entry w (Fs.dirkey t) x).
Proof.
  unfold os_listdir, Fs.lookup_dir, entry. destruct t as [|a t]; simpl.
  - split; [done|]. by intros [? _].
  - destruct (dirs w !! _) as [dir|]; simpl.
    + rewrite <- list_elem_of_In, list_elem_of_fmap. split.
      * intros ([n y] & -> & H%elem_of_map_to_list). split; [done|]. by exists y.
      * intros [_ [y H]]. exists (x, y). split; [done|]. by apply elem_of_map_to_list.
    + split; [done|]. by intros [_ [? ?]].
Qed.

Lemma listdir_NoDup t w : NoDup (os_listdir t w).
Proof.
  unfold os_listdir. destruct (Fs.lookup_dir w t); [|constructor].
  apply NoDup_fst_map_to_list.
Qed.

Lemma candidates_NoDup t w : NoDup (candidates (os_listdir t w)).
Proof.
  unfold candidates. apply NoDup_ListNoDup, List.NoDup_filter, NoDup_ListNoDup.
  apply listdir_NoDup.
Qed.

Lemma run_agree argv w : agree w (run argv w).2.
Proof.
  unfold run.
  destruct (os_path_isdir (target_of argv) w) eqn:Hd.
  - destruct (candidates (os_listdir (target_of argv) w)) as [|f fs] eqn:Hc.
    + rewrite (main_nothing _ _ Hd Hc). by apply agree_same_dirs.
    + destruct (main_batch argv w Hd) as (p & w1 & _ & Hm & _ & Ha); [by rewrite Hc|].
      rewrite Hc in Hm. rewrite Hm. simpl.
      apply (agree_trans _ _ _ Ha). by apply agree_same_dirs.
  - rewrite (main_not_dir _ _ Hd). by apply agree_same_dirs.
Qed.

(** Agreeing worlds list the same candidates. *)
Lemma agree_candidates t w w' x :
  agree w w' ->
  In x (candidates (os_listdir t w)) <-> In x (candidates (os_listdir t w')).
Proof.
  intros Ha. unfold candidates. rewrite !filter_In, !in_listdir.
  split; intros [[Ht Hx] Hc]; (split; [split; [done|]|done]).
  - by rewrite <- (agree_inputs _ _ Ha) by by apply candidate_not_cropped.
  - by rewrite (agree_inputs _ _ Ha) by by apply candidate_not_cropped.
Qed.

(** C7. Every path a crop returns ends with [_cropped.png] and names no
    candidate.  After a run the directory lists the same candidates as
    before it; and if a later listing holds nothing but what the
    directory held after the run and some added names, its candidates are
    at most the first run's plus the candidates among the added names. *)
Theorem rerun_adds_no_candidates argv w (added : list string) w2 :
  let t := target_of argv in
  let w1 := (run argv w).2 in
  (forall n, In n (os_listdir t w2) -> In n (os_listdir t w1) \/ In n added) ->
  (forall src w0 r w0',
     crop_file src w0 = (inr r, w0') -> r <> "" ->
     Str.endswith r "_cropped.png" = true /\ is_candidate (OsPath.basename r) = false) /\
  candidates (os_listdir t w1) ≡ₚ candidates (os_listdir t w) /\
  (length (candidates (os_listdir t w2))
     <= length (candidates (os_listdir t w)) + length (candidates added))%nat.
Proof.
  intros t w1 Hadded.
  assert (candidates (os_listdir t w1) ≡ₚ candidates (os_listdir t w)) as Hperm.
  { apply NoDup_Permutation.
    - apply candidates_NoDup.
    - apply candidates_NoDup.
    - intros x. rewrite !list_elem_of_In. symmetry. apply agree_candidates, run_agree. }
  split; [|split; [done|]].
  - intros src w0 r w0' Hrun Hr.
    destruct (crop_file_success _ _ _ _ Hrun Hr) as (-> & _).
    split; [rewrite out_path_eq; apply endswith_app|].
    pose proof (cropped_name_out src) as Hn. rewrite <- basename_split in Hn.
    unfold is_candidate, cropped_name in *. by rewrite Hn, andb_false_r.
  - rewrite <- (Permutation_length Hperm), <- length_app.
    apply submseteq_length, NoDup_submseteq; [apply candidates_NoDup|].
    intros x Hx. apply list_elem_of_In in Hx. apply list_elem_of_In, in_app_iff. unfold candidates in *.
    rewrite !filter_In. apply filter_In in Hx as [Hin Hc].
    destruct (Hadded x Hin); [left|right]; done.
Qed.

End Rerun.

(** ** The sample directory, run *)
Section Sample.

Example sample_candidates :
  sorted (candidates (os_listdir "shots" sample_world))
    = [".png"; "B.PNG"; "a.png"; "old.png"; "sub.png"; "thumb.png"; "z.png"].
Proof. vm_compute. reflexivity. Qed.

Example sample_run :
  (run sample_argv sample_world).1 = 0 /\
  stdout (run sample_argv sample_world).2 =
    ["WARN: .png expected (1920, 1080), got (2000, 1000)";
     "CROPPED .png -> .png_cropped.png";
     "WARN: B.PNG expected (1920, 1080), got (480, 300)";
     "ERROR: B.PNG failed: tile cannot extend outside image";
     "CROPPED a.png -> a_cropped.png";
     "ERROR: old.png failed: [Errno 13] Permission denied: 'shots/old_cropped.png'";
     "ERROR: sub.png failed: [Errno 21] Is a directory: 'shots/sub.png'";
     "WARN: thumb.png expected (1920, 1080), got (100, 100)";
     "ERROR: thumb.png failed: Coordinate 'right' is less than 'left'";
     "ERROR: z.png failed: cannot identify image file 'shots/z.png'";
     "DONE: 2/7 images cropped in /home/u/shots"].
Proof. split; vm_compute; reflexivity. Qed.

Example sample_rerun :
  sorted (candidates (os_listdir "shots" (run sample_argv sample_world).2))
    = [".png"; "B.PNG"; "a.png"; "old.png"; "sub.png"; "thumb.png"; "z.png"] /\
  sorted (candidates (os_listdir "shots" sample_world_later))
    = [".png"; "B.PNG"; "a.png"; "new.png"; "old.png"; "sub.png"; "thumb.png"; "z.png"].
Proof. split; vm_compute; reflexivity. Qed.

Example sample_not_a_directory :
  (run ["batch-crop-usdt-pairs-v2.py"; "nowhere"] sample_world).1 = 1 /\
  stdout (run ["batch-crop-usdt-pairs-v2.py"; "nowhere"] sample_world).2 =
    ["ERROR: target is not a directory: nowhere"].
Proof. split; vm_compute; reflexivity. Qed.

Example sample_paths :
  OsPath.splitext "shots/BTCUSDT.PNG" = ("shots/BTCUSDT", ".PNG") /\
  OsPath.splitext "a.d/..png" = ("a.d/..png", "") /\
  OsPath.join "shots/" "x.png" = "shots/x.png" /\
  OsPath.join "." "x.png" = "./x.png" /\
  out_path_of "shots/BTCUSDT.PNG" = "shots/BTCUSDT_cropped.png" /\
  out_path_of "shots/.png" = "shots/.png_cropped.png".
Proof. repeat split; reflexivity. Qed.

Lemma crop_file_removes_margins_witness :
  exists out w',
    crop_file "shots/a.png" sample_world = (inr "shots/a_cropped.png", w') /\
    Fs.lookup w' "shots/a_cropped.png" = Some (File false (Png out)) /\
    size out = (1440, 850) /\
    stdout w' = ["CROPPED a.png -> a_cropped.png"].
Proof.
  destruct (crop_file_removes_margins "shots/a.png" sample_world false
              (sample_image 1920 1080))
    as (out & H1 & _ & _ & _ & _ & H2); try reflexivity.
  destruct H2 as (w' & H2 & H3 & H4); [reflexivity|].
  exists out, w'. split; [exact H2|]. split; [exact H3|]. split; [exact H1|exact H4].
Defined.

Lemma discovery_filters_and_sorts_witness :
  sorted (candidates ["b.png"; "notes.txt"; "a_cropped.png"; "A.PNG"]) = ["A.PNG"; "b.png"] /\
  StronglySorted String.le (sorted (candidates ["b.png"; "notes.txt"; "a_cropped.png"; "A.PNG"])).
Proof.
  split; [vm_compute; reflexivity|].
  exact (proj1 (proj2 (proj2
    (discovery_filters_and_sorts ["b.png"; "notes.txt"; "a_cropped.png"; "A.PNG"])))).
Defined.

Lemma degenerate_crop_fails_witness :
  succeeds (OsPath.join "shots" "B.PNG") sample_world = false /\
  exists w', run sample_argv sample_world = (0, w').
Proof.
  destruct (degenerate_crop_fails sample_argv sample_world "B.PNG" true
              (sample_image 480 300))
    as (e & w1 & w' & _ & _ & Hf & Hr & _).
  - reflexivity.
  - vm_compute. repeat (constructor; [reflexivity|]). constructor.
  - vm_compute. repeat (first [left; reflexivity | right]).
  - reflexivity.
  - left. simpl. lia.
  - split; [exact Hf|]. exists w'. exact Hr.
Defined.

Lemma failure_is_caught_per_file_witness :
  crop_file (OsPath.join "shots" "z.png") sample_world =
    (inr "", add_line "ERROR: z.png failed: cannot identify image file 'shots/z.png'"
               sample_world).
Proof.
  destruct (failure_is_caught_per_file "shots" "z.png" ["a.png"] 0 sample_world
              (UnidentifiedImageError "shots/z.png") sample_world)
    as [H _].
  - discriminate.
  - reflexivity.
  - repeat constructor.
  - reflexivity.
  - exact H.
Defined.



Lemma rerun_adds_no_candidates_witness :
  (length (candidates (os_listdir "shots" sample_world_later))
     <= length (candidates (os_listdir "shots" sample_world))
        + length (candidates ["new.png"; "late_cropped.png"]))%nat.
Proof.
  destruct (rerun_adds_no_candidates sample_argv sample_world
              ["new.png"; "late_cropped.png"] sample_world_later)
    as (_ & _ & H).
  - intros n Hn.
    assert (forallb (fun m => existsb (String.eqb m)
                      (os_listdir (target_of sample_argv) (run sample_argv sample_world).2
                         ++ ["new.png"; "late_cropped.png"]))
              (os_listdir (target_of sample_argv) sample_world_later) = true) as Hb
      by (vm_compute; reflexivity).
    rewrite forallb_forall in Hb. specialize (Hb n Hn).
    apply existsb_exists in Hb as (m & Hm & Heq). apply String.eqb_eq in Heq as ->.
    apply in_app_or. exact Hm.
  - exact H.
Defined.


Lemma tally_invariant_witness :
  exists p w1,
    crop_loop "shots" [".png"; "B.PNG"] 0 sample_world = (inr p, w1) /\
    0 <= p <= 2.
Proof.
  destruct (tally_invariant sample_argv sample_world
              [".png"; "B.PNG"] ["a.png"; "old.png"; "sub.png"; "thumb.png"; "z.png"])
    as (p & w1 & H1 & H2 & _).
  - vm_compute. reflexivity.
  - exists p, w1. split; [exact H1|exact H2].
Defined.

End Sample.

(** ** What a crop leaves alone *)
Section Frame.

Implicit Types (w : world) (src t f d n : string) (img : image).

Lemma save_frame img fp w d n :
  (d, n) <> Fs.split fp -> entry (PIL.save img fp w).2 d n = entry w d n.
Proof.
  intros Hne. rewrite save_eq. simpl.
  assert (((Fs.split fp).1, (Fs.split fp).2) <> (d, n)) as Hne'
    by (rewrite <- surjective_pairing; congruence).
  destruct (dirs w !! _); [|done].
  destruct (kind_of _); try done; destruct (_ && _); simpl;
    by rewrite ?entry_put_ne.
Qed.

Lemma save_keeps img fp w d n :
  is_Some (entry w d n) -> is_Some (entry (PIL.save img fp w).2 d n).
Proof.
  intros Hsome. rewrite save_eq. simpl.
  destruct (dirs w !! (Fs.split fp).1) as [dir|] eqn:Hd; [|done].
  assert (forall x, is_Some (entry (Fs.put (Fs.split fp).1 (Fs.split fp).2 x w) d n)) as Hput.
  { intros x. destruct (decide (((Fs.split fp).1, (Fs.split fp).2) = (d, n))) as [[= <- <-]|Hne].
    - rewrite entry_put_eq; eauto.
    - by rewrite entry_put_ne. }
  destruct (kind_of _); try done; destruct (_ && _); simpl; auto.
Qed.

Lemma save_dirs img fp w d :
  is_Some (dirs (PIL.save img fp w).2 !! d) <-> is_Some (dirs w !! d).
Proof.
  rewrite save_eq. simpl. destruct (dirs w !! (Fs.split fp).1); [|done].
  destruct (kind_of _); try done; destruct (_ && _); simpl;
    by rewrite ?dirs_put_is_Some.
Qed.

(** The directories after a crop are those before it, or those a single
    [Image.save] to the output path left. *)
Lemma crop_file_dirs src w :
  dirs (crop_file src w).2 = dirs w \/
  exists img,
    dirs (crop_file src w).2 =
      dirs (PIL.save (cropped img) (out_path_of src) (warned src img w)).2.
Proof.
  rewrite crop_file_body.
  destruct (open_error_cases src (Fs.lookup w src)) as [(ro & img & H)|(e & H & He)].
  - rewrite (crop_body_png _ _ _ _ _ H).
    destruct (_ <? 480); [left; simpl; apply dirs_warned|].
    destruct (_ <? 230); [left; simpl; apply dirs_warned|].
    right. exists img. by destruct (PIL.save _ _ _) as [[e|[]] w2].
  - rewrite (crop_body_nopng _ _ _ _ H). by left.
Qed.

(** X1. A call of [crop_file] changes no entry but the one at its output
    path, removes no entry, and neither creates nor removes a directory. *)
Theorem crop_file_touches_only_output src w :
  (forall d n, (d, n) <> Fs.split (out_path_of src) ->
               entry (crop_file src w).2 d n = entry w d n) /\
  (forall d n, is_Some (entry w d n) -> is_Some (entry (crop_file src w).2 d n)) /\
  (forall d, is_Some (dirs (crop_file src w).2 !! d) <-> is_Some (dirs w !! d)).
Proof.
  destruct (crop_file_dirs src w) as [Hd|[img Hd]].
  - split; [|split].
    + intros d n _. by apply entry_dirs.
    + intros d n. by rewrite (entry_dirs _ _ _ _ Hd).
    + intros d. by rewrite Hd.
  - split; [|split].
    + intros d n Hne. rewrite (entry_dirs _ _ _ _ Hd), save_frame by done.
      apply entry_dirs, dirs_warned.
    + intros d n Hsome. rewrite (entry_dirs _ _ _ _ Hd). apply save_keeps.
      by rewrite (entry_dirs _ w) by apply dirs_warned.
    + intros d. by rewrite Hd, save_dirs, dirs_warned.
Qed.

Lemma crop_file_frame src w d n :
  (d, n) <> Fs.split (out_path_of src) ->
  entry (crop_file src w).2 d n = entry w d n.
Proof.
  destruct (crop_file_dirs src w) as [Hd|[img Hd]]; intros Hne.
  - by apply entry_dirs.
  - rewrite (entry_dirs _ _ _ _ Hd), save_frame by done.
    apply entry_dirs, dirs_warned.
Qed.

(** The extension [splitext] finds is empty or starts with a dot. *)
Lemma splitext_ext_dot p :
  (OsPath.splitext p).2 = "" \/ exists e, (OsPath.splitext p).2 = String "." e.
Proof.
  unfold OsPath.splitext. destruct (_ && _) eqn:E; [|by left]. right.
  apply andb_true_iff in E as [E _]. apply Z.ltb_lt in E.
  pose proof (rfind_ge p OsPath.sep).
  destruct (rfind_found p OsPath.extsep) as (a & b & Hp & _ & Hi); [lia|].
  exists b. simpl. rewrite Hi. unfold Str.from. rewrite Nat2Z.id, Hp at 1.
  apply str_drop_app.
Qed.

(** X2. The output path is never the source path, and a crop leaves its
    source as it was, whether it succeeds or fails. *)
Theorem crop_file_keeps_source src w :
  out_path_of src <> src /\
  Fs.lookup (crop_file src w).2 src = Fs.lookup w src.
Proof.
  assert (Fs.split src <> Fs.split (out_path_of src)) as Hne.
  { destruct (split_out_path src) as [Hs Ho]. simpl in Hs, Ho.
    rewrite Hs, Ho. intros [= H]. apply (inj (String.app _)) in H.
    destruct (splitext_ext_dot src) as [He|[e He]]; by rewrite He in H. }
  split; [intros H; by rewrite H in Hne|].
  rewrite !lookup_entry. apply crop_file_frame. by rewrite <- surjective_pairing.
Qed.

End Frame.

(** ** The log of a crop and of a run *)
Section Log.

Implicit Types (w : world) (src t f : string) (fs : list string).

Lemma out_path_truthy src : Str.truthy (out_path_of src) = true.
Proof.
  rewrite out_path_eq. by destruct (OsPath.splitext src).1.
Qed.

Lemma pre_lines_cases src w :
  pre_lines src w = [] \/
  exists ro img,
    Fs.lookup w src = Some (File ro (Png img)) /\
    size img <> EXPECTED_SIZE /\
    pre_lines src w = [warn_line src img].
Proof.
  unfold pre_lines. destruct (Fs.lookup w src) as [[|ro [img|]]|]; auto.
  destruct (size_eqb _ _) eqn:E; [by left|]. right. exists ro, img.
  split; [done|]. split; [|done]. intros H. apply size_eqb_eq in H. congruence.
Qed.


Lemma startswith_nil s : Str.startswith s "" = true.
Proof. by destruct s. Qed.

Lemma startswith_app tag s : Str.startswith (tag +:+ s) tag = true.
Proof.
  induction tag as [|a tag IH]; [apply startswith_nil|].
  rewrite str_app_cons.
  change (Str.startswith (String a (tag +:+ s)) (String a tag))
    with (Ascii.eqb a a && Str.startswith (tag +:+ s) tag).
  by rewrite Ascii.eqb_refl, IH.
Qed.

Lemma count_prefix_tagged tag s : count_prefix tag [tag +:+ s] = 1%nat.
Proof. unfold count_prefix. simpl List.filter. by rewrite startswith_app. Qed.

Lemma count_prefix_app tag (l1 l2 : list string) :
  count_prefix tag (l1 ++ l2) = (count_prefix tag l1 + count_prefix tag l2)%nat.
Proof. unfold count_prefix. by rewrite List.filter_app, length_app. Qed.

Lemma count_pre_lines src w :
  count_prefix "CROPPED " (pre_lines src w) = 0%nat /\
  count_prefix "ERROR: " (pre_lines src w) = 0%nat.
Proof.
  destruct (pre_lines_cases src w) as [->|(ro & img & _ & _ & ->)]; done.
Qed.

(** The loop prints one CROPPED line for each file it counts and one
    ERROR line for each of the others. *)
Lemma crop_loop_counts t fs p w :
  exists p' w' lines,
    crop_loop t fs p w = (inr p', w') /\
    stdout w' = stdout w ++ lines /\
    p' = p + Z.of_nat (count_prefix "CROPPED " lines) /\
    (count_prefix "CROPPED " lines + count_prefix "ERROR: " lines = length fs)%nat.
Proof.
  revert p w. induction fs as [|f fs IH]; intros p w.
  - exists p, w, []. rewrite app_nil_r. unfold count_prefix. simpl.
    split; [done|]. split; [done|]. split; lia.
  - destruct (crop_loop_cons t f fs p w) as (r & w1 & Hrun & ->).
    destruct (IH (if Str.truthy r then p + 1 else p) w1) as (p' & w' & lines & -> & Hout & Hp & Hn).
    pose proof (crop_file_lines (OsPath.join t f) w) as Hl.
    pose proof (crop_file_value (OsPath.join t f) w) as Hv.
    unfold last_line, value_of in Hl, Hv. rewrite Hrun in Hl, Hv. simpl in Hl, Hv.
    destruct (count_pre_lines (OsPath.join t f) w) as [Hc He].
    exists p', w'. eexists. split; [done|]. rewrite Hout, Hl, <- !app_assoc.
    split; [done|]. rewrite !count_prefix_app, Hc, He.
    destruct (crop_body _ _ w).1 as [e|r']; injection Hv as ->.
    + assert (count_prefix "CROPPED " [error_line (OsPath.join t f) e] = 0%nat) as H1
        by reflexivity.
      assert (count_prefix "ERROR: " [error_line (OsPath.join t f) e] = 1%nat) as H2
        by apply count_prefix_tagged.
      rewrite ?H1, ?H2. simpl in Hp. simpl length. lia.
    + assert (count_prefix "CROPPED "
                [cropped_line (OsPath.join t f) (out_path_of (OsPath.join t f))] = 1%nat) as H1
        by apply count_prefix_tagged.
      assert (count_prefix "ERROR: "
                [cropped_line (OsPath.join t f) (out_path_of (OsPath.join t f))] = 0%nat) as H2
        by reflexivity.
      rewrite ?H1, ?H2. rewrite out_path_truthy in Hp. simpl length. lia.
Qed.

(** X4. In a run over a non-empty candidate list, the count in the DONE
    line is the number of CROPPED lines printed before it, and the CROPPED
    and ERROR lines together are as many as the candidates: every
    candidate ends in exactly one of the two. *)
Theorem run_log_counts argv w :
  let t := target_of argv in
  let files := candidates (os_listdir t w) in
  os_path_isdir t w = true ->
  files <> [] ->
  exists s lines w',
    run argv w = (0, w') /\
    stdout w' = stdout w ++ lines ++ [done_line s (length files) (cwd_abspath w t)] /\
    s = Z.of_nat (count_prefix "CROPPED " lines) /\
    (count_prefix "CROPPED " lines + count_prefix "ERROR: " lines = length files)%nat.
Proof.
  intros t files Hd Hc.
  destruct (main_batch argv w Hd Hc) as (p & w1 & Hl & Hm & _ & _).
  destruct (crop_loop_counts t (sorted files) 0 w) as (p' & w1' & lines & Hl' & Hout & Hp & Hn).
  fold t files in Hl, Hm. rewrite Hl in Hl'. injection Hl' as <- <-.
  exists p, lines. eexists. split; [unfold run; by rewrite Hm|].
  split; [simpl; by rewrite Hout, <- app_assoc|]. split; [lia|].
  by rewrite Hn, sorted_length.
Qed.

End Log.

(** ** What a run leaves alone *)
Section RunFrame.

Implicit Types (w : world) (t f d n : string) (fs : list string).

Lemma crop_loop_frame t fs p w d n :
  (forall f, In f fs -> Fs.split (out_path_of (OsPath.join t f)) <> (d, n)) ->
  entry (crop_loop t fs p w).2 d n = entry w d n.
Proof.
  revert p w. induction fs as [|f fs IH]; intros p w Hne; [done|].
  destruct (crop_loop_cons t f fs p w) as (r & w1 & Hrun & ->).
  rewrite IH by (intros g Hg; apply Hne; by right).
  pose proof (crop_file_frame (OsPath.join t f) w d n) as H.
  rewrite Hrun in H. apply H. intros Heq. by apply (Hne f); [left|].
Qed.

Lemma crop_file_keeps src w d n :
  is_Some (entry w d n) -> is_Some (entry (crop_file src w).2 d n).
Proof.
  intros Hsome. destruct (crop_file_dirs src w) as [Hd|[img Hd]].
  - by rewrite (entry_dirs _ _ _ _ Hd).
  - rewrite (entry_dirs _ _ _ _ Hd). apply save_keeps.
    by rewrite (entry_dirs _ w) by apply dirs_warned.
Qed.

Lemma crop_loop_keeps t fs p w d n :
  is_Some (entry w d n) -> is_Some (entry (crop_loop t fs p w).2 d n).
Proof.
  revert p w. induction fs as [|f fs IH]; intros p w Hsome; [done|].
  destruct (crop_loop_cons t f fs p w) as (r & w1 & Hrun & ->).
  apply IH. pose proof (crop_file_keeps (OsPath.join t f) w d n Hsome) as H.
  by rewrite Hrun in H.
Qed.

Lemma run_keeps argv w d n :
  is_Some (entry w d n) -> is_Some (entry (run argv w).2 d n).
Proof.
  intros Hsome. unfold run.
  destruct (os_path_isdir (target_of argv) w) eqn:Hd.
  - destruct (candidates (os_listdir (target_of argv) w)) as [|f0 fs0] eqn:Hc.
    + by rewrite (main_nothing _ _ Hd Hc).
    + destruct (main_batch argv w Hd) as (p & w1 & Hl & Hm & _); [by rewrite Hc|].
      rewrite Hc in Hl, Hm. rewrite Hm. simpl.
      rewrite (entry_dirs _ w1) by done.
      pose proof (crop_loop_keeps (target_of argv) (sorted (f0 :: fs0)) 0 w d n Hsome) as H.
      by rewrite Hl in H.
  - by rewrite (main_not_dir _ _ Hd).
Qed.

Lemma run_frame argv w d n :
  (forall f, In f (candidates (os_listdir (target_of argv) w)) ->
             Fs.split (out_path_of (OsPath.join (target_of argv) f)) <> (d, n)) ->
  entry (run argv w).2 d n = entry w d n.
Proof.
  intros Hne. unfold run.
  destruct (os_path_isdir (target_of argv) w) eqn:Hd.
  - destruct (candidates (os_listdir (target_of argv) w)) as [|f0 fs0] eqn:Hc.
    + by rewrite (main_nothing _ _ Hd Hc).
    + destruct (main_batch argv w Hd) as (p & w1 & Hl & Hm & _); [by rewrite Hc|].
      rewrite Hc in Hl, Hm. rewrite Hm. simpl.
      rewrite (entry_dirs _ w1) by done.
      pose proof (crop_loop_frame (target_of argv) (sorted (f0 :: fs0)) 0 w d n) as H.
      rewrite Hl in H. apply H. intros f Hf. apply Hne. by apply in_sorted.
  - by rewrite (main_not_dir _ _ Hd).
Qed.

(** X5. Whatever entry differs after a run is at the output path of one
    of the candidates: a run changes nothing else. *)
Theorem run_touches_only_outputs argv w d n :
  entry (run argv w).2 d n <> entry w d n ->
  exists f,
    In f (candidates (os_listdir (target_of argv) w)) /\
    Fs.split (out_path_of (OsPath.join (target_of argv) f)) = (d, n).
Proof.
  intros Hchg.
  destruct (Exists_dec
              (fun f => Fs.split (out_path_of (OsPath.join (target_of argv) f)) = (d, n))
              (candidates (os_listdir (target_of argv) w))) as [Hex|Hno].
  - apply Exists_exists in Hex as (f & Hin%list_elem_of_In & Hf). eauto.
  - exfalso. apply Hchg, run_frame. intros f Hin Heq.
    apply Hno, Exists_exists. exists f. split; [by apply list_elem_of_In|done].
Qed.

(** X6. A run stays inside its target directory and off its inputs:
    every entry of another directory, and every entry whose name does not
    end with [_cropped.png] in some casing, is after the run what it was
    before; and no entry disappears. *)
Theorem run_is_confined argv w d n :
  Forall no_sep (os_listdir (target_of argv) w) ->
  (d <> Fs.dirkey (target_of argv) \/ cropped_name n = false ->
   entry (run argv w).2 d n = entry w d n) /\
  (is_Some (entry w d n) -> is_Some (entry (run argv w).2 d n)).
Proof.
  intros Hsep. split.
  - intros [Hd|Hn].
    + destruct (os_path_isdir (target_of argv) w) eqn:Hdir.
      * apply run_frame. intros f Hin Heq.
        assert (no_sep f) as Hf.
        { rewrite Forall_forall in Hsep. apply Hsep, list_elem_of_In.
          unfold candidates in Hin. by apply filter_In in Hin as [? _]. }
        destruct (split_out_path (OsPath.join (target_of argv) f)) as [_ Ho].
        simpl in Ho. rewrite Ho, split_join in Heq;
          [|by apply (isdir_target_nonempty _ w)|done].
        simpl in Heq. congruence.
      * unfold run. by rewrite (main_not_dir _ _ Hdir).
    + symmetry. by apply (agree_inputs _ _ (run_agree argv w)).
  - apply run_keeps.
Qed.

End RunFrame.

(** ** Running again, and in another order *)
Section Again.

Implicit Types (w : world) (t f : string) (fs : list string) (argv : list string).

Lemma agree_isdir t w w' : agree w w' -> os_path_isdir t w = os_path_isdir t w'.
Proof.
  intros Ha. unfold os_path_isdir, Fs.lookup_dir. destruct (Str.truthy t); [|done].
  pose proof (agree_dirs _ _ Ha (Fs.dirkey t)) as [H1 H2].
  destruct (dirs w !! _), (dirs w' !! _); try done.
  - by destruct H1 as [? [=]]; eauto.
  - by destruct H2 as [? [=]]; eauto.
Qed.

Lemma agree_sorted_candidates t w w' :
  agree w w' ->
  sorted (candidates (os_listdir t w')) = sorted (candidates (os_listdir t w)) /\
  length (candidates (os_listdir t w')) = length (candidates (os_listdir t w)).
Proof.
  intros Ha.
  assert (candidates (os_listdir t w') ≡ₚ candidates (os_listdir t w)) as Hperm.
  { apply NoDup_Permutation; try apply candidates_NoDup.
    intros x. rewrite !list_elem_of_In. symmetry. by apply agree_candidates. }
  split; [|by apply Permutation_length].
  apply (StronglySorted_unique String.le); try apply sorted_Sorted.
  by rewrite !sorted_perm.
Qed.

Lemma agree_report_tally t fs w w' :
  t <> "" ->
  Forall (fun g => no_sep g /\ cropped_name g = false) fs ->
  agree w w' ->
  report t fs w = report t fs w' /\ tally t fs w = tally t fs w'.
Proof.
  intros Ht Hfs Ha.
  assert (report t fs w = report t fs w' /\
          List.filter (fun g => succeeds (OsPath.join t g) w) fs =
          List.filter (fun g => succeeds (OsPath.join t g) w') fs) as [H1 H2].
  { unfold report. induction Hfs as [|f fs [Hsep Hname] _ [IH1 IH2]]; [done|].
    assert (cropped_name (Fs.split (OsPath.join t f)).2 = false) as Hn
      by (by rewrite split_join).
    destruct (crop_file_agree_eq _ _ _ Ha Hn) as [Hv Hp].
    assert (succeeds (OsPath.join t f) w = succeeds (OsPath.join t f) w') as Hs
      by (unfold succeeds; by rewrite Hv).
    simpl. by rewrite Hp, IH1, Hs, IH2. }
  split; [done|]. unfold tally. by rewrite H2.
Qed.

Lemma run_lines_app argv w lines :
  stdout (run argv w).2 = stdout w ++ lines -> run_lines argv w = lines.
Proof. intros H. unfold run_lines. by rewrite H, drop_app_length. Qed.

(** A run over candidates that hold no separator, as [run_batch] has it
    for a listing; the [abspath] oracle is left as it was. *)
Lemma run_batch_gen argv w :
  os_path_isdir (target_of argv) w = true ->
  candidates (os_listdir (target_of argv) w) <> [] ->
  Forall (fun g => no_sep g /\ cropped_name g = false)
    (sorted (candidates (os_listdir (target_of argv) w))) ->
  exists w',
    run argv w = (0, w') /\
    agree w w' /\
    cwd_abspath w' = cwd_abspath w /\
    stdout w' =
      stdout w ++
      report (target_of argv) (sorted (candidates (os_listdir (target_of argv) w))) w ++
      [done_line (tally (target_of argv)
                    (sorted (candidates (os_listdir (target_of argv) w))) w)
         (length (candidates (os_listdir (target_of argv) w)))
         (cwd_abspath w (target_of argv))].
Proof.
  intros Hd Hc Hfs.
  destruct (main_batch argv w Hd Hc) as (p & w1 & Hl & Hm & _ & _).
  destruct (crop_loop_isolated (target_of argv) _ 0 w w
              (isdir_target_nonempty _ _ Hd) Hfs (agree_refl w))
    as (w1' & Hl' & Ha & Hout & Habs).
  rewrite Hl in Hl'. injection Hl' as -> <-.
  eexists. split; [unfold run; by rewrite Hm|]. split; [|split].
  - apply (agree_trans _ _ _ Ha). by apply agree_same_dirs.
  - done.
  - simpl. by rewrite Hout, <- app_assoc.
Qed.

(** X7. Run a second time on the directory as the first run left it, the
    script exits with the same status and prints the same lines, summary
    included: the outputs of the first run neither become candidates nor
    change how any candidate fares. *)
Theorem rerun_same_log argv w :
  Forall no_sep (os_listdir (target_of argv) w) ->
  (run argv (run argv w).2).1 = (run argv w).1 /\
  run_lines argv (run argv w).2 = run_lines argv w.
Proof.
  intros Hsep.
  destruct (os_path_isdir (target_of argv) w) eqn:Hd.
  - destruct (candidates (os_listdir (target_of argv) w)) as [|f0 fs0] eqn:Hc.
    + assert (run argv w =
              (0, add_line "INFO: No PNG files to process in target directory." w)) as Hr
        by (unfold run; by rewrite (main_nothing _ _ Hd Hc)).
      rewrite Hr. simpl.
      assert (run argv (add_line "INFO: No PNG files to process in target directory." w) =
              (0, add_line "INFO: No PNG files to process in target directory."
                    (add_line "INFO: No PNG files to process in target directory." w))) as Hr'
        by (unfold run;
            by rewrite (main_nothing argv
                          (add_line "INFO: No PNG files to process in target directory." w)
                          Hd Hc)).
      split; [by rewrite Hr'|].
      rewrite (run_lines_app _ _ ["INFO: No PNG files to process in target directory."])
        by (by rewrite Hr').
      symmetry. apply run_lines_app. by rewrite Hr.
    + assert (candidates (os_listdir (target_of argv) w) <> []) as Hne by (by rewrite Hc).
      pose proof (candidates_Forall _ Hsep) as Hfs.
      destruct (run_batch_gen argv w Hd Hne Hfs) as (w1 & Hr & Ha & Habs & Hout).
      destruct (agree_sorted_candidates (target_of argv) _ _ Ha) as [Hsort Hlen].
      assert (candidates (os_listdir (target_of argv) w1) <> []) as Hne1.
      { intros Hnil. rewrite Hnil, Hc in Hlen. done. }
      destruct (run_batch_gen argv w1) as (w2 & Hr2 & _ & _ & Hout2).
      { by rewrite <- (agree_isdir _ _ _ Ha). }
      { done. }
      { by rewrite Hsort. }
      rewrite Hr. simpl. rewrite Hr2. split; [done|].
      rewrite (run_lines_app _ _ _ ltac:(rewrite Hr2; exact Hout2)).
      rewrite (run_lines_app _ _ _ ltac:(rewrite Hr; exact Hout)).
      rewrite Hsort, Hlen, Habs.
      destruct (agree_report_tally (target_of argv) _ _ _
                  (isdir_target_nonempty _ _ Hd) Hfs Ha) as [-> ->].
      done.
  - assert (run argv w =
            (1, add_line ("ERROR: target is not a directory: " +:+ target_of argv) w)) as Hr
      by (unfold run; by rewrite (main_not_dir _ _ Hd)).
    rewrite Hr. simpl.
    assert (run argv (add_line ("ERROR: target is not a directory: " +:+ target_of argv) w) =
            (1, add_line ("ERROR: target is not a directory: " +:+ target_of argv)
                  (add_line ("ERROR: target is not a directory: " +:+ target_of argv) w))) as Hr'
      by (unfold run;
          by rewrite (main_not_dir argv
                        (add_line ("ERROR: target is not a directory: " +:+ target_of argv) w)
                        Hd)).
    split; [by rewrite Hr'|].
    rewrite (run_lines_app _ _ ["ERROR: target is not a directory: " +:+ target_of argv])
      by (by rewrite Hr').
    symmetry. apply run_lines_app. by rewrite Hr.
Qed.

End Again.

Section Order.

Implicit Types (w : world) (t f : string) (fs : list string).

Lemma report_perm t fs fs' w : fs ≡ₚ fs' -> report t fs w ≡ₚ report t fs' w.
Proof.
  unfold report. induction 1 as [|x l l' _ IH|x y l|l1 l2 l3 _ IH1 _ IH2]; simpl.
  - done.
  - by rewrite IH.
  - rewrite !app_assoc. f_equiv. apply Permutation_app_comm.
  - by etrans.
Qed.

Lemma tally_perm t fs fs' w : fs ≡ₚ fs' -> tally t fs w = tally t fs' w.
Proof.
  intros H. unfold tally. f_equal.
  induction H as [|x l l' _ IH|x y l|l1 l2 l3 _ IH1 _ IH2]; simpl.
  - done.
  - destruct (succeeds _ _); simpl; by rewrite IH.
  - by destruct (succeeds _ w), (succeeds _ w).
  - by etrans.
Qed.

(** X8. The order in which the candidates are taken decides the order of
    the log and nothing else: over any rearrangement of the same
    candidates the loop counts the same number of successes and prints
    the same lines, rearranged. *)
Theorem loop_order_is_immaterial t fs fs' w :
  t <> "" ->
  Forall (fun g => no_sep g /\ is_candidate g = true) fs ->
  fs ≡ₚ fs' ->
  exists s w1 w2,
    crop_loop t fs 0 w = (inr s, w1) /\
    crop_loop t fs' 0 w = (inr s, w2) /\
    drop (length (stdout w)) (stdout w1) ≡ₚ drop (length (stdout w)) (stdout w2).
Proof.
  intros Ht Hfs Hperm.
  assert (Forall (fun g => no_sep g /\ cropped_name g = false) fs) as Hfs1.
  { eapply Forall_impl; [done|]. intros g [? ?]. split; [done|].
    by apply candidate_not_cropped. }
  assert (Forall (fun g => no_sep g /\ cropped_name g = false) fs') as Hfs2
    by (by rewrite <- Hperm).
  destruct (crop_loop_isolated t fs 0 w w Ht Hfs1 (agree_refl w)) as (w1 & H1 & _ & Ho1 & _).
  destruct (crop_loop_isolated t fs' 0 w w Ht Hfs2 (agree_refl w)) as (w2 & H2 & _ & Ho2 & _).
  exists (0 + tally t fs w), w1, w2. split; [done|]. split.
  - by rewrite (tally_perm _ _ _ _ Hperm).
  - rewrite Ho1, Ho2, !drop_app_length. by apply report_perm.
Qed.

End Order.

(** ** Output names *)
Section Names.

Implicit Types (w : world) (t stem e : string).

Lemma str_contains_app c (s1 s2 : string) :
  Str.contains c (s1 +:+ s2) = Str.contains c s1 || Str.contains c s2.
Proof.
  induction s1 as [|a s1 IH]; [done|]. rewrite str_app_cons.
  change (Str.contains c (String a (s1 +:+ s2)))
    with (Ascii.eqb a c || Str.contains c (s1 +:+ s2)).
  change (Str.contains c (String a s1)) with (Ascii.eqb a c || Str.contains c s1).
  by rewrite IH, orb_assoc.
Qed.

Lemma no_sep_app (s1 s2 : string) : no_sep s1 -> no_sep s2 -> no_sep (s1 +:+ s2).
Proof. unfold no_sep. intros H1 H2. by rewrite str_contains_app, H1, H2. Qed.

Lemma out_path_join t stem e :
  t <> "" -> no_sep stem -> OsPath.has_non_dot stem = true ->
  Str.contains "." e = false -> no_sep e ->
  out_path_of (OsPath.join t (stem +:+ String "." e)) =
    OsPath.join t (stem +:+ "_cropped.png").
Proof.
  intros Ht Hstem Hdot He Hsep.
  assert (no_sep (stem +:+ String "." e)) as Hf.
  { apply no_sep_app; [done|]. unfold no_sep in *.
    change (Str.contains OsPath.sep (String "." e))
      with (Ascii.eqb "." OsPath.sep || Str.contains OsPath.sep e).
    by rewrite Hsep. }
  pose proof (basename_join t _ Ht Hf) as Hb.
  pose proof (splitext_regular _ _ _ Hb He Hdot) as Hext.
  destruct (splitext_app (OsPath.join t (stem +:+ String "." e))) as [Hsrc _].
  rewrite Hext in Hsrc. rewrite out_path_eq.
  rewrite (join_eq t _ Hf) in Hsrc at 1.
  rewrite (join_eq t (stem +:+ "_cropped.png")) by (by apply no_sep_app).
  destruct (negb (Str.truthy t) || Str.endswith t "/").
  - rewrite <- str_app_assoc in Hsrc. apply str_app_inv_tail in Hsrc.
    by rewrite <- Hsrc, str_app_assoc.
  - rewrite <- !str_app_assoc in Hsrc. apply str_app_inv_tail in Hsrc.
    by rewrite <- Hsrc, !str_app_assoc.
Qed.

(** X9. For an entry [stem.ext] of the target directory the output path
    is [stem_cropped.png] in that directory, whatever the extension: two
    entries that differ in their extension only, as [a.png] and [a.PNG],
    are written to one and the same output path. *)
Theorem output_name_forgets_extension t stem e1 e2 :
  t <> "" -> no_sep stem -> OsPath.has_non_dot stem = true ->
  Str.contains "." e1 = false -> no_sep e1 ->
  Str.contains "." e2 = false -> no_sep e2 ->
  out_path_of (OsPath.join t (stem +:+ String "." e1)) =
    OsPath.join t (stem +:+ "_cropped.png") /\
  out_path_of (OsPath.join t (stem +:+ String "." e2)) =
    out_path_of (OsPath.join t (stem +:+ String "." e1)).
Proof.
  intros Ht Hstem Hdot He1 Hs1 He2 Hs2.
  by rewrite !out_path_join.
Qed.

End Names.

(** ** The target, with or without a trailing separator *)
Section Slash.

Implicit Types (w : world) (t f prog : string) (fs rest : list string).







End Slash.

(** ** When a crop succeeds *)
Section Success.

Implicit Types (w : world) (src : string) (img : image).



End Success.

(** ** The sample directory again *)
Section SampleMore.

Example sample_collision :
  out_path_of (OsPath.join "shots" "a.PNG") = out_path_of (OsPath.join "shots" "a.png") /\
  sorted ["a.png"; "a.PNG"] = ["a.PNG"; "a.png"].
Proof. split; vm_compute; reflexivity. Qed.

Example sample_succeeds :
  List.filter (fun f => succeeds (OsPath.join "shots" f) sample_world)
    (sorted (candidates (os_listdir "shots" sample_world))) = [".png"; "a.png"].
Proof. vm_compute. reflexivity. Qed.

Lemma crop_file_touches_only_output_witness :
  entry (crop_file "shots/a.png" sample_world).2 "shots" "z.png"
    = entry sample_world "shots" "z.png".
Proof.
  apply (proj1 (crop_file_touches_only_output "shots/a.png" sample_world)).
  vm_compute. discriminate.
Defined.

Lemma run_log_counts_witness :
  exists s lines w',
    run sample_argv sample_world = (0, w') /\
    s = Z.of_nat (count_prefix "CROPPED " lines) /\
    (count_prefix "CROPPED " lines + count_prefix "ERROR: " lines = 7)%nat.
Proof.
  destruct (run_log_counts sample_argv sample_world) as (s & lines & w' & H1 & _ & H3 & H4).
  - reflexivity.
  - vm_compute. discriminate.
  - exists s, lines, w'. split; [exact H1|]. split; [exact H3|exact H4].
Defined.

Lemma run_touches_only_outputs_witness :
  exists f,
    In f (candidates (os_listdir "shots" sample_world)) /\
    Fs.split (out_path_of (OsPath.join "shots" f)) = ("shots", "a_cropped.png").
Proof.
  apply (run_touches_only_outputs sample_argv sample_world "shots" "a_cropped.png").
  vm_compute. discriminate.
Defined.

Lemma run_is_confined_witness :
  entry (run sample_argv sample_world).2 "shots" "a.png"
    = entry sample_world "shots" "a.png".
Proof.
  apply (proj1 (run_is_confined sample_argv sample_world "shots" "a.png"
                  ltac:(vm_compute; repeat (constructor; [reflexivity|]); constructor))).
  right. reflexivity.
Defined.

Lemma rerun_same_log_witness :
  (run sample_argv (run sample_argv sample_world).2).1 = (run sample_argv sample_world).1 /\
  run_lines sample_argv (run sample_argv sample_world).2
    = run_lines sample_argv sample_world.
Proof.
  apply (rerun_same_log sample_argv sample_world).
  vm_compute. repeat (constructor; [reflexivity|]). constructor.
Defined.

Lemma loop_order_is_immaterial_witness :
  exists s w1 w2,
    crop_loop "shots" ["a.png"; "z.png"] 0 sample_world = (inr s, w1) /\
    crop_loop "shots" ["z.png"; "a.png"] 0 sample_world = (inr s, w2).
Proof.
  destruct (loop_order_is_immaterial "shots" ["a.png"; "z.png"] ["z.png"; "a.png"]
              sample_world) as (s & w1 & w2 & H1 & H2 & _).
  - discriminate.
  - repeat (constructor; [split; reflexivity|]). constructor.
  - apply perm_swap.
  - exists s, w1, w2. split; [exact H1|exact H2].
Defined.

Lemma output_name_forgets_extension_witness :
  out_path_of (OsPath.join "shots" "a.png") = OsPath.join "shots" "a_cropped.png" /\
  out_path_of (OsPath.join "shots" "a.PNG") = out_path_of (OsPath.join "shots" "a.png").
Proof.
  apply (output_name_forgets_extension "shots" "a" "png" "PNG");
    first [discriminate | reflexivity].
Defined.


End SampleMore.
